(** * llm-cluster: the [cluster] command of [llm_cluster.py]

    A shallow embedding of the command registered by [register_commands]
    and the properties of its pipeline: reading the rows of a collection,
    grouping them by the label the clustering library assigns, truncating
    the content, and the optional summary pass with its sampling step.

    Python values are modelled as follows.
    - [str] is [string]; a character of the model stands for one code
      point (the whitespace table below covers the code points under 256).
    - [int] is [Z]; [None]-able values are [option].
    - the [clusters] dict is an association list in insertion order, which
      is the order Python dicts iterate in.
    - the collaborators (sqlite store, scikit-learn, the language model,
      the default-model and key lookup) are variables of a section; an
      exception is the name of its class.
    - [random.sample] draws from a tape of numbers carried by the state. *)

From Stdlib Require Import List String Ascii ZArith Lia Bool Arith.
From Stdlib Require Import Permutation DecimalString.
From Stdlib Require DecimalZ.
Import ListNotations.

Local Open Scope string_scope.
Local Open Scope list_scope.

(** ** Python built-ins on [str] *)

Module Py.

(** [bool(s)] for a string: non-empty. *)
Definition truthy (s : string) : bool :=
  match s with
  | EmptyString => false
  | String _ _ => true
  end.

(** [bool(x)] for an optional string: neither [None] nor [""]. *)
Definition truthy_opt (x : option string) : bool :=
  match x with
  | None => false
  | Some s => truthy s
  end.

(** [x or d] on optional strings. *)
Definition or_else (x : option string) (d : string) : string :=
  match x with
  | Some (String c s) => String c s
  | _ => d
  end.

(** [len(s)]. *)
Definition len (s : string) : Z := Z.of_nat (String.length s).

(** The first [k] characters: [s[:k]] for [k >= 0]. *)
Fixpoint take (k : nat) (s : string) : string :=
  match k, s with
  | S k', String c s' => String c (take k' s')
  | _, _ => EmptyString
  end.

(** [sep.join(l)]. *)
Fixpoint join (sep : string) (l : list string) : string :=
  match l with
  | [] => ""
  | [x] => x
  | x :: l' => x ++ sep ++ join sep l'
  end.

(** [c.isspace()] on the code points below 256: TAB..CR, FS..US, space,
    NEL and NBSP. *)
Definition isspace (c : ascii) : bool :=
  let n := nat_of_ascii c in
  ((9 <=? n)%nat && (n <=? 13)%nat) || ((28 <=? n)%nat && (n <=? 32)%nat)
  || (n =? 133)%nat || (n =? 160)%nat.

Fixpoint lstrip (s : string) : string :=
  match s with
  | EmptyString => EmptyString
  | String c s' => if isspace c then lstrip s' else s
  end.

Fixpoint rstrip (s : string) : string :=
  match s with
  | EmptyString => EmptyString
  | String c s' =>
      match rstrip s' with
      | EmptyString => if isspace c then EmptyString else String c EmptyString
      | r => String c r
      end
  end.

(** [s.strip()]. *)
Definition strip (s : string) : string := rstrip (lstrip s).

(** Every character of [s] is whitespace (true of [""]). *)
Fixpoint all_space (s : string) : bool :=
  match s with
  | EmptyString => true
  | String c s' => isspace c && all_space s'
  end.

(** [str(i)] for an integer. *)
Definition str (i : Z) : string := NilZero.string_of_int (Z.to_int i).

(** [int(a * b / 100)]: the true quotient truncated toward zero.  The
    float quotient of two integers is correctly rounded, so the
    truncation agrees with [Z.quot] as long as [a * b] stays far below
    2^53, which any list length times a percentage does. *)
Definition int_percent (a b : Z) : Z := Z.quot (a * b) 100.

Definition newline : string := String (ascii_of_nat 10) EmptyString.

End Py.

(** ** Data *)

Section Data.

(** The decoded embedding, a tuple of floats the pipeline never
    inspects. *)
Variable vec : Type.

(** One element of [rows]: [(row[0], llm.decode(row[1]), row[2])]. *)
Record row := mk_row {
  row_id : string;
  row_vec : vec;
  row_content : option string
}.

End Data.

Arguments mk_row {vec}.
Arguments row_id {vec}.
Arguments row_vec {vec}.
Arguments row_content {vec}.

(** [{"id": ..., "content": ...}]. *)
Record item := mk_item {
  item_id : string;
  item_content : option string
}.

(** [{"id": k, "items": v}]. *)
Record out_cluster := mk_cluster {
  cluster_id : string;
  cluster_items : list item
}.

(** ** [truncate_text] and the assembling of the clusters *)

(** The closure [truncate_text] of [cluster], with the option [truncate]
    it captures as first argument. *)
Definition truncate_text (truncate : Z) (text : option string) : option string :=
  match text with
  | None => None
  | Some s =>
      if negb (Py.truthy s) then None
      else if (0 <? truncate)%Z then Some (Py.take (Z.to_nat truncate) s)
      else Some s
  end.

(** [clusters.setdefault(k, []).append(v)]. *)
Fixpoint setdefault_append (k : string) (v : item)
    (clusters : list (string * list item)) : list (string * list item) :=
  match clusters with
  | [] => [(k, [v])]
  | (k', vs) :: rest =>
      if String.eqb k' k then (k', vs ++ [v]) :: rest
      else (k', vs) :: setdefault_append k v rest
  end.

Section Assemble.

Context {vec : Type}.
Variable truncate : Z.

(** The dict built from one pair of [zip(rows, assignments)]. *)
Definition item_of (r : row vec) : item :=
  mk_item (row_id r) (truncate_text truncate (row_content r)).

Definition add_pair (clusters : list (string * list item))
    (p : row vec * Z) : list (string * list item) :=
  setdefault_append (Py.str (snd p)) (item_of (fst p)) clusters.

(** The loop over [zip(rows, assignments)], from a given dict. *)
Definition group_from (clusters : list (string * list item))
    (rows : list (row vec)) (assignments : list Z) :=
  fold_left add_pair (combine rows assignments) clusters.

(** [output_clusters]. *)
Definition assemble (rows : list (row vec)) (assignments : list Z)
    : list out_cluster :=
  map (fun kv => mk_cluster (fst kv) (snd kv)) (group_from [] rows assignments).

End Assemble.

(** ** The store *)

Section Store.

(** The encoded embedding as stored. *)
Variable blob : Type.

(** A record of the table [embeddings]. *)
Record embedding := mk_embedding {
  emb_collection_id : Z;
  emb_id : string;
  emb_blob : blob;
  emb_content : option string
}.

(** The two tables the query reads; a record of [collections] is
    [(id, name)]. *)
Record Database := mk_database {
  collections : list (Z * string);
  embeddings : list embedding
}.

(** [select id from collections where name = ?] as a scalar subquery:
    the id of the first record found, NULL when there is none. *)
Fixpoint collection_id (name : string) (cs : list (Z * string)) : option Z :=
  match cs with
  | [] => None
  | (i, nm) :: cs' => if String.eqb nm name then Some i else collection_id name cs'
  end.

(** [select id, embedding, content from embeddings where collection_id
    = (...)]: a comparison with NULL holds of no record. *)
Definition select_embeddings (db : Database) (name : string) : list embedding :=
  match collection_id name (collections db) with
  | None => []
  | Some cid => filter (fun e => Z.eqb (emb_collection_id e) cid) (embeddings db)
  end.

End Store.

Arguments mk_embedding {blob}.
Arguments emb_collection_id {blob}.
Arguments emb_id {blob}.
Arguments emb_blob {blob}.
Arguments emb_content {blob}.
Arguments mk_database {blob}.
Arguments collections {blob}.
Arguments embeddings {blob}.
Arguments collection_id name cs : simpl nomatch.
Arguments select_embeddings {blob}.

(** ** Effects: exceptions, the trace of calls and output, the random tape *)

(** An exception, by the name of its class. *)
Definition exn := string.

Inductive result (A : Type) : Type :=
| Ok (a : A)
| Raise (e : exn).

Arguments Ok {A}.
Arguments Raise {A}.

(** What one [click.echo] call of the command prints, by call site, with
    the values it serialises. *)
Inductive echo : Type :=
| ArrayOpen
| ObjectOpen
| IdLine (k : string)
| ItemsLine (its : list item)
| SummaryLine (s : option string)
| ObjectClose (is_last : bool)
| ArrayClose
| Dump (cs : list out_cluster).

(** A [llm] model: its name, the key it needs and the key it holds. *)
Record Model := mk_model {
  model_id : string;
  needs_key : option string;
  key_env_var : option string;
  key : option string
}.

Definition set_key (m : Model) (k : string) : Model :=
  mk_model (model_id m) (needs_key m) (key_env_var m) (Some k).

Section Effects.

Context {vec : Type}.

(** The observable steps of a run, in order. *)
Inductive event : Type :=
| Fit (n : Z) (data : list vec)
| Sample (k : Z) (drawn : list item)
| Prompt (text system : string)
| Echo (e : echo).

Record outcome (A : Type) : Type := mk_outcome {
  trace : list event;
  tape_left : list nat;
  res : result A
}.

(** A computation reads the random tape, and yields a trace, the rest of
    the tape, and a value or an exception. *)
Definition M (A : Type) : Type := list nat -> outcome A.

Definition ret {A} (a : A) : M A :=
  fun tape => mk_outcome A [] tape (Ok a).

Definition raise {A} (e : exn) : M A :=
  fun tape => mk_outcome A [] tape (Raise e).

Definition bind {A B} (m : M A) (f : A -> M B) : M B :=
  fun tape =>
    let o := m tape in
    match res A o with
    | Ok a =>
        let o' := f a (tape_left A o) in
        mk_outcome B (trace A o ++ trace B o') (tape_left B o') (res B o')
    | Raise e => mk_outcome B (trace A o) (tape_left A o) (Raise e)
    end.

Definition emit (ev : event) : M unit :=
  fun tape => mk_outcome unit [ev] tape (Ok tt).

Definition lift {A} (r : result A) : M A :=
  fun tape => mk_outcome A [] tape r.

End Effects.

Arguments event : clear implicits.
Arguments outcome : clear implicits.
Arguments M : clear implicits.
Arguments mk_outcome {vec A}.
Arguments trace {vec A}.
Arguments tape_left {vec A}.
Arguments res {vec A}.

Declare Scope run_scope.
Delimit Scope run_scope with run.
Notation "x <- m ;; k" := (bind m (fun x => k))
  (at level 61, m at next level, right associativity) : run_scope.
Notation "m ;; k" := (bind m (fun _ => k))
  (at level 61, right associativity) : run_scope.

(** ** [random.sample] *)

Fixpoint remove_at {A} (j : nat) (l : list A) : list A :=
  match j, l with
  | _, [] => []
  | O, _ :: l' => l'
  | S j', x :: l' => x :: remove_at j' l'
  end.

(** [k] draws without replacement: each draw takes the next number of the
    tape (0 once the tape is used up), modulo the size of the pool, as the
    position to take from the pool. *)
Fixpoint draw {A} (k : nat) (pool : list A) (tape : list nat) : list A * list nat :=
  match k, pool with
  | S k', x :: _ =>
      let j := Nat.modulo (hd O tape) (List.length pool) in
      let rest := draw k' (remove_at j pool) (tl tape) in
      (nth j pool x :: fst rest, snd rest)
  | _, _ => ([], tape)
  end.

(** [random.sample(population, k)]: [ValueError] unless
    [0 <= k <= len(population)]. *)
Definition randsample {vec} (population : list item) (k : Z) : M vec (list item) :=
  fun tape =>
    if ((k <? 0) || (Z.of_nat (List.length population) <? k))%Z
    then raise "ValueError" tape
    else
      let d := draw (Z.to_nat k) population tape in
      mk_outcome [Sample k (fst d)] (snd d) (Ok (fst d)).

(** ** The command *)

Definition DEFAULT_SUMMARY_PROMPT : string :=
  "Short, concise title for this cluster of related documents.".

(** [item["content"]] where it is read as a string. *)
Definition content_of (it : item) : string :=
  match item_content it with
  | Some s => s
  | None => ""
  end.

(** ["\n".join([item["content"] for item in items if item["content"]])]. *)
Definition prompt_content_of (items : list item) : string :=
  Py.join Py.newline
    (map content_of (filter (fun it => Py.truthy_opt (item_content it)) items)).

(** [[False] * (len(output_clusters) - 1) + [True]]. *)
Definition last_flags (count : nat) : list bool :=
  repeat false (Z.to_nat (Z.of_nat count - 1)) ++ [true].

Section Run.

Context {blob vec : Type}.

(** The collaborators. *)
Variable decode : blob -> vec.
Variable open_db : string -> Database blob.
Variable user_db : string.
Variable fit_labels : Z -> list vec -> result (list Z).
Variable get_default_model : string.
Variable get_model : string -> result Model.
Variable get_key : string -> option string -> option string -> result string.
Variable model_prompt : Model -> string -> string -> result string.

Local Open Scope run_scope.

(** The store [db]: the one at [database] when the option is given,
    the one of the user directory otherwise. *)
Definition the_db (database : option string) : Database blob :=
  match database with
  | Some (String c p) => open_db (String c p)
  | _ => open_db user_db
  end.

(** The list [rows]. *)
Definition read_rows (database : option string) (collection : string)
    : list (row vec) :=
  map (fun e => mk_row (emb_id e) (decode (emb_blob e)) (emb_content e))
      (select_embeddings (the_db database) collection).

(** [clustering_model.fit(to_cluster)] and its [labels_]. *)
Definition fit (n : Z) (to_cluster : list vec) : M vec (list Z) :=
  emit (Fit n to_cluster) ;; lift (fit_labels n to_cluster).

(** [model.prompt(prompt_content, system=prompt).text()]. *)
Definition ask (m : Model) (prompt_content prompt : string) : M vec string :=
  emit (Prompt prompt_content prompt) ;; lift (model_prompt m prompt_content prompt).

(** The text for the model: the contents joined, or those of a sample
    when the joined text is longer than [sample_threshold]. *)
Definition summary_input (sample_threshold sample : Z) (items : list item)
    : M vec string :=
  let prompt_content := prompt_content_of items in
  if (sample_threshold <? Py.len prompt_content)%Z then
    sampled_items <-
      randsample items (Py.int_percent (Z.of_nat (List.length items)) sample) ;;
    ret (prompt_content_of sampled_items)
  else ret prompt_content.

(** The summary of one cluster. *)
Definition summarise (m : Model) (prompt : string)
    (sample_threshold sample : Z) (items : list item) : M vec (option string) :=
  prompt_content <- summary_input sample_threshold sample items ;;
  if Py.truthy (Py.strip prompt_content) then
    s <- ask m prompt_content prompt ;; ret (Some s)
  else ret None.

(** One turn of the loop over [output_clusters]. *)
Definition emit_cluster (m : Model) (prompt : string)
    (sample_threshold sample : Z) (ci : out_cluster * bool) : M vec unit :=
  emit (Echo ObjectOpen) ;;
  emit (Echo (IdLine (cluster_id (fst ci)))) ;;
  emit (Echo (ItemsLine (cluster_items (fst ci)))) ;;
  summary <- summarise m prompt sample_threshold sample (cluster_items (fst ci)) ;;
  emit (Echo (SummaryLine summary)) ;;
  emit (Echo (ObjectClose (snd ci))).

Fixpoint for_each {A} (body : A -> M vec unit) (l : list A) : M vec unit :=
  match l with
  | [] => ret tt
  | a :: l' => body a ;; for_each body l'
  end.

(** [llm.get_model(model or get_default_model())], with its key. *)
Definition load_model (model : option string) : M vec Model :=
  m <- lift (get_model (Py.or_else model get_default_model)) ;;
  if Py.truthy_opt (needs_key m) then
    k <- lift (get_key "" (needs_key m) (key_env_var m)) ;;
    ret (set_key m k)
  else ret m.

(** The body of [cluster]. *)
Definition cluster (collection : string) (n truncate : Z)
    (database : option string) (summary : bool) (model prompt : option string)
    (sample_threshold sample : Z) : M vec unit :=
  let rows := read_rows database collection in
  assignments <- fit n (map row_vec rows) ;;
  let output_clusters := assemble truncate rows assignments in
  if summary then
    m <- load_model model ;;
    let prompt := Py.or_else prompt DEFAULT_SUMMARY_PROMPT in
    emit (Echo ArrayOpen) ;;
    for_each (emit_cluster m prompt sample_threshold sample)
      (combine output_clusters (last_flags (List.length output_clusters))) ;;
    emit (Echo ArrayClose)
  else emit (Echo (Dump output_clusters)).

End Run.

(** ** The counts the specification words give *)

(** [round(a * b / 100)] as the specification writes the sample size:
    the nearest integer, a tie going to the even one. *)
Definition spec_round_percent (a b : Z) : Z :=
  let q := Z.div (a * b) 100 in
  let r := Z.modulo (a * b) 100 in
  if (r <? 50)%Z then q
  else if (50 <? r)%Z then (q + 1)%Z
  else if Z.even q then q else (q + 1)%Z.

(** ** The grouping, stated directly *)

(** The keys of a list in the order of their first occurrence. *)
Fixpoint first_seen (keys : list string) : list string :=
  match keys with
  | [] => []
  | k :: keys' => k :: filter (fun k' => negb (String.eqb k' k)) (first_seen keys')
  end.

(** The rows of [pairs] whose stringified label is [k], in the order they
    come in [pairs]. *)
Definition rows_of {vec} (k : string) (pairs : list (row vec * Z)) : list (row vec) :=
  map fst (filter (fun p => String.eqb (Py.str (snd p)) k) pairs).

(** What a row contributes to the text for the model: its content after
    [truncate_text], nothing when that is [None]. *)
Definition kept_text {vec} (truncate : Z) (r : row vec) : list string :=
  match truncate_text truncate (row_content r) with
  | Some s => [s]
  | None => []
  end.

(** ** Stub collaborators and small stores for the examples *)

Module Stub.

(** Embeddings are lists of integers, stored undecoded. *)
Definition vec := list Z.
Definition decode (b : list Z) : vec := b.

(** The clustering stub labels a vector by its first coordinate, and
    rejects an empty data set as scikit-learn does. *)
Definition fit_labels (n : Z) (data : list vec) : result (list Z) :=
  match data with
  | [] => Raise "ValueError"
  | _ => Ok (map (fun v => hd 0%Z v) data)
  end.

Definition get_default_model : string := "stub".

Definition get_model (name : string) : result Model :=
  Ok (mk_model name None None None).

Definition get_key (explicit : string) (needs env : option string)
    : result string := Ok "secret".

(** The model stub echoes the text it is given. *)
Definition model_prompt (m : Model) (text system : string) : result string :=
  Ok text.

Definition emb (cid : Z) (id : string) (label : Z) (content : option string)
    : embedding (list Z) :=
  mk_embedding cid id [label] content.

(** One collection, [docs], of four items in three groups, scanned in
    the label order 2, 0, 2, 1; a second collection holds one item. *)
Definition docs_db : Database (list Z) :=
  mk_database
    [(1%Z, "docs"); (2%Z, "notes")]
    [ emb 1 "a" 2 (Some "alpha beta");
      emb 2 "z" 0 (Some "zzz");
      emb 1 "b" 0 (Some "");
      emb 1 "c" 2 None;
      emb 1 "d" 1 (Some "delta") ].

(** A collection of four items in one group, 20 characters each. *)
Definition big_db : Database (list Z) :=
  mk_database
    [(7%Z, "big")]
    [ emb 7 "p" 0 (Some "pppppppppppppppppppp");
      emb 7 "q" 0 (Some "qqqqqqqqqqqqqqqqqqqq");
      emb 7 "r" 0 (Some "rrrrrrrrrrrrrrrrrrrr");
      emb 7 "s" 0 (Some "ssssssssssssssssssss") ].

Definition open_db (path : string) : Database (list Z) :=
  if String.eqb path "big.db" then big_db else docs_db.

Definition user_db : string := "embeddings.db".

(** The rows of [docs], the labels the stub gives them, and the items
    of the one cluster of [big] when nothing is truncated. *)
Definition docs_rows : list (row vec) :=
  read_rows decode open_db user_db None "docs".

Definition docs_labels : list Z := [2; 0; 2; 1]%Z.

Definition big_items : list item :=
  map (item_of 0) (read_rows decode open_db user_db (Some "big.db") "big").

(** The command with the stubs plugged in. *)
Definition run :=
  cluster decode open_db user_db fit_labels get_default_model get_model
          get_key model_prompt.

End Stub.

(** ** What a trace prints and asks *)

(** The [click.echo] calls of a trace, in order. *)
Definition echoes {vec} (tr : list (event vec)) : list echo :=
  flat_map (fun ev => match ev with Echo e => [e] | _ => [] end) tr.

(** The calls of the model in a trace, in order: the text and the system
    prompt of each. *)
Definition prompts {vec} (tr : list (event vec)) : list (string * string) :=
  flat_map (fun ev => match ev with Prompt t p => [(t, p)] | _ => [] end) tr.

(** The five lines one turn of the loop prints for a cluster, with the
    summary it found. *)
Definition block (ci : out_cluster * bool) (summary : option string) : list echo :=
  [ObjectOpen; IdLine (cluster_id (fst ci)); ItemsLine (cluster_items (fst ci));
   SummaryLine summary; ObjectClose (snd ci)].

(** * Properties *)

(** ** Strings *)

Section StringFacts.

Lemma take_length (k : nat) (s : string) :
  String.length (Py.take k s) = Nat.min k (String.length s).
Proof.
  revert s; induction k as [|k IH]; intros [|c s]; simpl; auto.
Qed.

Lemma take_split (k : nat) (s : string) :
  exists rest, s = (Py.take k s ++ rest)%string.
Proof.
  revert s; induction k as [|k IH]; intros s.
  - exists s. destruct s; reflexivity.
  - destruct s as [|c s].
    + exists "". reflexivity.
    + destruct (IH s) as [rest E]. exists rest. simpl. now rewrite <- E.
Qed.

Lemma take_all (k : nat) (s : string) :
  (String.length s <= k)%nat -> Py.take k s = s.
Proof.
  revert s; induction k as [|k IH]; intros [|c s]; simpl; intros H;
    try reflexivity; try lia.
  rewrite IH by lia. reflexivity.
Qed.

Lemma take_truthy (k : nat) (s : string) :
  (0 < k)%nat -> Py.truthy (Py.take k s) = Py.truthy s.
Proof.
  destruct k as [|k]; [lia|]. destruct s; reflexivity.
Qed.

Lemma rstrip_nonspace (c : ascii) (s : string) :
  Py.isspace c = false -> Py.truthy (Py.rstrip (String c s)) = true.
Proof.
  intros Hc. simpl. destruct (Py.rstrip s); [rewrite Hc|]; reflexivity.
Qed.

(** [s.strip()] is truthy exactly when [s] has a character that is not
    whitespace. *)
Lemma strip_truthy (s : string) :
  Py.truthy (Py.strip s) = negb (Py.all_space s).
Proof.
  induction s as [|c s IH]; [reflexivity|].
  unfold Py.strip in *. simpl.
  destruct (Py.isspace c) eqn:Hc; simpl.
  - exact IH.
  - change (Py.truthy (Py.rstrip (String c s)) = true).
    now apply rstrip_nonspace.
Qed.

Lemma truncate_text_truthy (t : Z) (x : option string) :
  Py.truthy_opt (truncate_text t x) = Py.truthy_opt x.
Proof.
  destruct x as [[|c s]|]; try reflexivity.
  unfold truncate_text. cbn [Py.truthy negb].
  destruct (0 <? t)%Z eqn:Ht; [|reflexivity].
  cbn [Py.truthy_opt]. apply take_truthy. apply Z.ltb_lt in Ht. lia.
Qed.

End StringFacts.

(** ** The sampler *)

Section SamplerFacts.

Context {A : Type}.

Lemma remove_at_length (j : nat) (l : list A) :
  (j < List.length l)%nat -> S (List.length (remove_at j l)) = List.length l.
Proof.
  revert j; induction l as [|x l IH]; intros [|j] H; simpl in *; try lia.
  rewrite IH by lia. reflexivity.
Qed.

Lemma remove_at_perm (j : nat) (l : list A) (d : A) :
  (j < List.length l)%nat -> Permutation (nth j l d :: remove_at j l) l.
Proof.
  revert j; induction l as [|x l IH]; intros [|j] H; simpl in *; try lia.
  - reflexivity.
  - rewrite perm_swap. constructor. apply IH. lia.
Qed.

Lemma draw_length (k : nat) (pool : list A) (tape : list nat) :
  (k <= List.length pool)%nat -> List.length (fst (draw k pool tape)) = k.
Proof.
  revert pool tape; induction k as [|k IH]; intros pool tape H; [reflexivity|].
  destruct pool as [|x pool]; [simpl in H; lia|].
  cbn [draw fst]. cbn [List.length]. f_equal. apply IH.
  pose proof (remove_at_length
                (Nat.modulo (hd O tape) (List.length (x :: pool))) (x :: pool)) as R.
  assert (Hj : (Nat.modulo (hd O tape) (List.length (x :: pool))
                < List.length (x :: pool))%nat)
    by (apply Nat.mod_upper_bound; simpl; lia).
  specialize (R Hj). simpl in *. lia.
Qed.

(** The draws come from distinct positions of the pool: what is drawn,
    together with what stays, is the pool. *)
Lemma draw_perm (k : nat) (pool : list A) (tape : list nat) :
  exists rest, Permutation (fst (draw k pool tape) ++ rest) pool.
Proof.
  revert pool tape; induction k as [|k IH]; intros pool tape.
  - exists pool. reflexivity.
  - destruct pool as [|x pool]; [exists []; reflexivity|].
    cbn [draw fst].
    set (j := Nat.modulo (hd O tape) (List.length (x :: pool))).
    destruct (IH (remove_at j (x :: pool)) (tl tape)) as [rest P].
    exists rest. cbn [app]. rewrite P. apply remove_at_perm.
    apply Nat.mod_upper_bound. simpl. lia.
Qed.

Lemma draw_incl (k : nat) (pool : list A) (tape : list nat) :
  incl (fst (draw k pool tape)) pool.
Proof.
  destruct (draw_perm k pool tape) as [rest P].
  intros a Ha. eapply Permutation_in; [exact P|]. apply in_or_app. now left.
Qed.

End SamplerFacts.

(** ** The dict of clusters *)

Section DictFacts.

Lemma setdefault_append_items (k : string) (v : item) d :
  Permutation (List.concat (map snd (setdefault_append k v d)))
              (v :: List.concat (map snd d)).
Proof.
  induction d as [|[k' vs] d IH]; simpl.
  - reflexivity.
  - destruct (String.eqb k' k); simpl.
    + rewrite <- app_assoc. simpl. symmetry. apply Permutation_middle.
    + rewrite IH. symmetry. apply Permutation_middle.
Qed.

Lemma setdefault_append_keys_in (k : string) (v : item) d :
  In k (map fst d) -> map fst (setdefault_append k v d) = map fst d.
Proof.
  induction d as [|[k' vs] d IH]; simpl; intros H; [contradiction|].
  destruct (String.eqb k' k) eqn:E; simpl; [reflexivity|].
  f_equal. apply IH. destruct H as [H|H]; [|exact H].
  apply String.eqb_neq in E. contradiction.
Qed.

Lemma setdefault_append_keys_new (k : string) (v : item) d :
  ~ In k (map fst d) -> map fst (setdefault_append k v d) = map fst d ++ [k].
Proof.
  induction d as [|[k' vs] d IH]; simpl; intros H; [reflexivity|].
  destruct (String.eqb k' k) eqn:E; simpl.
  - apply String.eqb_eq in E. tauto.
  - f_equal. apply IH. tauto.
Qed.

Lemma setdefault_append_keys_nodup (k : string) (v : item) d :
  NoDup (map fst d) -> NoDup (map fst (setdefault_append k v d)).
Proof.
  intros H. destruct (in_dec string_dec k (map fst d)) as [I|I].
  - now rewrite setdefault_append_keys_in.
  - rewrite setdefault_append_keys_new by exact I.
    apply NoDup_app; [exact H|repeat constructor; intros []|].
    intros a Ha [<-|[]]. contradiction.
Qed.

(** On a dict given by its keys [L] and a function [f] from keys to
    lists, appending under a key that is present extends that key's
    list only. *)
Lemma setdefault_append_present (k : string) (v : item) (f : string -> list item) L :
  NoDup L -> In k L ->
  setdefault_append k v (map (fun k' => (k', f k')) L)
  = map (fun k' => (k', f k' ++ (if String.eqb k' k then [v] else []))) L.
Proof.
  induction L as [|a L IH]; intros ND I; [contradiction|].
  inversion ND as [|? ? Ha ND']; subst. simpl.
  destruct (String.eqb a k) eqn:E.
  - apply String.eqb_eq in E; subst a. f_equal.
    apply map_ext_in. intros k' Hk'.
    assert (N : String.eqb k' k = false).
    { apply String.eqb_neq. intros ->. contradiction. }
    rewrite N, app_nil_r. reflexivity.
  - rewrite app_nil_r. f_equal. apply IH; [exact ND'|].
    destruct I as [I|I]; [|exact I].
    apply String.eqb_neq in E. contradiction.
Qed.

Lemma setdefault_append_absent (k : string) (v : item) (f : string -> list item) L :
  ~ In k L ->
  setdefault_append k v (map (fun k' => (k', f k')) L)
  = map (fun k' => (k', f k')) L ++ [(k, [v])].
Proof.
  induction L as [|a L IH]; intros I; [reflexivity|]. simpl.
  destruct (String.eqb a k) eqn:E.
  - apply String.eqb_eq in E. subst. exfalso. apply I. now left.
  - f_equal. apply IH. intros H. apply I. now right.
Qed.

Lemma in_first_seen (k : string) l : In k (first_seen l) <-> In k l.
Proof.
  induction l as [|a l IH]; simpl; [tauto|].
  rewrite filter_In, IH. split.
  - intros [H|[H _]]; auto.
  - intros [H|H]; auto.
    destruct (String.eqb k a) eqn:E.
    + apply String.eqb_eq in E. auto.
    + right. split; [exact H|reflexivity].
Qed.

Lemma first_seen_nodup l : NoDup (first_seen l).
Proof.
  induction l as [|a l IH]; simpl; constructor.
  - rewrite filter_In. intros [_ H]. rewrite String.eqb_refl in H. discriminate.
  - now apply NoDup_filter.
Qed.

Lemma first_seen_snoc_new (k : string) l :
  ~ In k l -> first_seen (l ++ [k]) = first_seen l ++ [k].
Proof.
  induction l as [|a l IH]; simpl; intros H; [reflexivity|]. f_equal.
  rewrite IH by tauto. rewrite filter_app. simpl.
  assert (N : String.eqb k a = false) by (apply String.eqb_neq; intros ->; tauto).
  now rewrite N.
Qed.

Lemma first_seen_snoc_in (k : string) l :
  In k l -> first_seen (l ++ [k]) = first_seen l.
Proof.
  induction l as [|a l IH]; simpl; intros H; [contradiction|]. f_equal.
  destruct (string_dec a k) as [->|N].
  - destruct (in_dec string_dec k l) as [I|I].
    + now rewrite IH.
    + rewrite first_seen_snoc_new by exact I.
      rewrite filter_app. simpl. rewrite String.eqb_refl. simpl.
      apply app_nil_r.
  - destruct H as [H|H]; [contradiction|]. now rewrite IH.
Qed.

End DictFacts.

(** ** The assembled clusters *)

Section AssembleFacts.

Context {vec : Type}.
Variable t : Z.

Lemma rows_of_snoc (k : string) (pairs : list (row vec * Z)) p :
  rows_of k (pairs ++ [p])
  = rows_of k pairs ++ (if String.eqb (Py.str (snd p)) k then [fst p] else []).
Proof.
  unfold rows_of. rewrite filter_app, map_app. simpl.
  destruct (String.eqb (Py.str (snd p)) k); reflexivity.
Qed.

Lemma rows_of_absent (k : string) (pairs : list (row vec * Z)) :
  ~ In k (map (fun p : row vec * Z => Py.str (snd p)) pairs) -> rows_of k pairs = [].
Proof.
  unfold rows_of. induction pairs as [|p pairs IH]; simpl; intros H; [reflexivity|].
  destruct (String.eqb (Py.str (snd p)) k) eqn:E.
  - apply String.eqb_eq in E. tauto.
  - apply IH. tauto.
Qed.

(** The dict after the loop: one entry per key, in the order the keys
    were first met, holding the items of the rows under that key in the
    order of the rows. *)
Lemma group_from_char (pairs : list (row vec * Z)) :
  fold_left (add_pair t) pairs []
  = map (fun k => (k, map (item_of t) (rows_of k pairs)))
        (first_seen (map (fun p : row vec * Z => Py.str (snd p)) pairs)).
Proof.
  induction pairs as [|p pairs IH] using rev_ind; [reflexivity|].
  rewrite fold_left_app. cbn [fold_left]. rewrite IH. unfold add_pair at 1.
  rewrite map_app. cbn [map].
  destruct (in_dec string_dec (Py.str (snd p)) (map (fun p : row vec * Z => Py.str (snd p)) pairs)) as [I|I].
  - rewrite first_seen_snoc_in by exact I.
    rewrite setdefault_append_present;
      [|apply first_seen_nodup|now apply in_first_seen].
    apply map_ext. intros k. rewrite rows_of_snoc, map_app. f_equal. f_equal.
    rewrite String.eqb_sym. destruct (String.eqb (Py.str (snd p)) k); reflexivity.
  - rewrite first_seen_snoc_new by exact I.
    rewrite setdefault_append_absent by (now rewrite in_first_seen).
    rewrite map_app. cbn [map]. f_equal.
    + apply map_ext_in. intros k Hk. apply (proj1 (in_first_seen _ _)) in Hk.
      rewrite rows_of_snoc.
      assert (N : String.eqb (Py.str (snd p)) k = false).
      { apply String.eqb_neq. intros E. subst k. exact (I Hk). }
      rewrite N, app_nil_r. reflexivity.
    + rewrite rows_of_snoc, rows_of_absent by exact I.
      rewrite String.eqb_refl. reflexivity.
Qed.

Lemma group_from_items (pairs : list (row vec * Z)) d :
  Permutation (List.concat (map snd (fold_left (add_pair t) pairs d)))
              (List.concat (map snd d) ++ map (fun p => item_of t (fst p)) pairs).
Proof.
  revert d; induction pairs as [|p pairs IH]; intros d; simpl.
  - now rewrite app_nil_r.
  - rewrite IH. unfold add_pair at 1. rewrite setdefault_append_items.
    simpl. apply Permutation_middle.
Qed.

Lemma group_from_keys_nodup (pairs : list (row vec * Z)) d :
  NoDup (map fst d) -> NoDup (map fst (fold_left (add_pair t) pairs d)).
Proof.
  revert d; induction pairs as [|p pairs IH]; intros d H; simpl; [exact H|].
  apply IH. now apply setdefault_append_keys_nodup.
Qed.

Lemma fst_combine (rows : list (row vec)) (labels : list Z) :
  List.length labels = List.length rows -> map fst (combine rows labels) = rows.
Proof.
  revert labels; induction rows as [|r rows IH]; intros [|l labels] H;
    simpl in *; try reflexivity; try discriminate.
  f_equal. apply IH. lia.
Qed.

Lemma fst_combine_incl (rows : list (row vec)) (labels : list Z) :
  incl (map fst (combine rows labels)) rows.
Proof.
  revert labels; induction rows as [|r rows IH]; intros [|l labels];
    cbn [combine map fst].
  - apply incl_nil_l.
  - apply incl_nil_l.
  - apply incl_nil_l.
  - apply incl_cons; [now left|]. apply incl_tl. apply IH.
Qed.

Lemma assemble_items (rows : list (row vec)) (labels : list Z) :
  Permutation (List.concat (map cluster_items (assemble t rows labels)))
              (map (item_of t) (map fst (combine rows labels))).
Proof.
  unfold assemble, group_from. rewrite map_map. cbn [cluster_items].
  rewrite (group_from_items (combine rows labels) []). simpl.
  now rewrite map_map.
Qed.

(** Every item of every cluster is the item of a row that was read. *)
Lemma assemble_items_from_rows (rows : list (row vec)) (labels : list Z) c it :
  In c (assemble t rows labels) -> In it (cluster_items c) ->
  exists r, In r rows /\ it = item_of t r.
Proof.
  intros Hc Hit.
  assert (H : In it (List.concat (map cluster_items (assemble t rows labels)))).
  { apply in_concat. exists (cluster_items c). split; [now apply in_map|exact Hit]. }
  eapply Permutation_in in H; [|apply assemble_items].
  apply in_map_iff in H. destruct H as [r [E Hr]]. exists r. split; [|now symmetry].
  now apply (fst_combine_incl rows labels).
Qed.

End AssembleFacts.

(** ** The text for the model *)

Section TextFacts.

Context {vec : Type}.

Lemma truncate_text_some (t : Z) (x : option string) (s : string) :
  truncate_text t x = Some s -> Py.truthy s = true.
Proof.
  intros H. pose proof (truncate_text_truthy t x) as T. rewrite H in T.
  cbn [Py.truthy_opt] in T. rewrite T.
  destruct x as [[|c x]|]; try discriminate H. reflexivity.
Qed.

(** The joined text of the items of some rows is the joined text the
    rows keep after [truncate_text]. *)
Lemma prompt_content_of_rows (t : Z) (rs : list (row vec)) :
  prompt_content_of (map (item_of t) rs)
  = Py.join Py.newline (flat_map (kept_text t) rs).
Proof.
  unfold prompt_content_of. f_equal.
  induction rs as [|r rs IH]; [reflexivity|].
  cbn [map filter flat_map]. unfold kept_text at 1. cbn [item_of item_content].
  destruct (truncate_text t (row_content r)) as [s|] eqn:E.
  - cbn [Py.truthy_opt]. rewrite (truncate_text_some _ _ _ E).
    cbn [map app]. f_equal; [|exact IH].
    unfold content_of, item_of. cbn [item_content]. now rewrite E.
  - cbn [Py.truthy_opt app]. exact IH.
Qed.

Lemma incl_map_inv {A B} (f : A -> B) (l : list B) (xs : list A) :
  incl l (map f xs) -> exists ys, incl ys xs /\ l = map f ys.
Proof.
  induction l as [|b l IH]; intros H.
  - exists []. split; [apply incl_nil_l|reflexivity].
  - destruct IH as [ys [I E]].
    { intros a Ha. apply H. now right. }
    assert (Hb : In b (map f xs)) by (apply H; now left).
    apply in_map_iff in Hb. destruct Hb as [x [Ex Hx]].
    exists (x :: ys). split.
    + apply incl_cons; assumption.
    + simpl. now rewrite Ex, E.
Qed.

(** A cluster of the output holds the items of the rows under its key,
    in the order of the rows. *)
Lemma assemble_cluster_items (t : Z) (rows : list (row vec)) (labels : list Z) c :
  In c (assemble t rows labels) ->
  cluster_items c
  = map (item_of t) (rows_of (cluster_id c) (combine rows labels)).
Proof.
  unfold assemble, group_from. rewrite group_from_char, map_map.
  intros H. apply in_map_iff in H. destruct H as [k [E _]]. subst c.
  reflexivity.
Qed.

Lemma rows_of_incl (k : string) (rows : list (row vec)) (labels : list Z) :
  incl (rows_of k (combine rows labels)) rows.
Proof.
  intros r H. unfold rows_of in H. apply in_map_iff in H.
  destruct H as [p [E Hp]]. apply filter_In in Hp. destruct Hp as [Hp _].
  apply (fst_combine_incl rows labels). apply in_map_iff. now exists p.
Qed.

(** What [summary_input] does on each side of the threshold. *)
Lemma summary_input_direct (st s : Z) (items : list item) (tape : list nat) :
  (Py.len (prompt_content_of items) <= st)%Z ->
  summary_input (vec := vec) st s items tape
  = mk_outcome [] tape (Ok (prompt_content_of items)).
Proof.
  intros H. unfold summary_input.
  apply Z.ltb_ge in H. rewrite H. reflexivity.
Qed.

Lemma summary_input_sampled (st s : Z) (items : list item) (tape : list nat) :
  (st < Py.len (prompt_content_of items))%Z ->
  let k := Py.int_percent (Z.of_nat (List.length items)) s in
  (0 <= k <= Z.of_nat (List.length items))%Z ->
  summary_input (vec := vec) st s items tape
  = mk_outcome [Sample k (fst (draw (Z.to_nat k) items tape))]
               (snd (draw (Z.to_nat k) items tape))
               (Ok (prompt_content_of (fst (draw (Z.to_nat k) items tape)))).
Proof.
  intros H k Hk. unfold summary_input.
  apply Z.ltb_lt in H. rewrite H.
  unfold bind, randsample. fold k.
  assert (E : ((k <? 0) || (Z.of_nat (List.length items) <? k))%Z = false).
  { apply orb_false_intro; apply Z.ltb_ge; lia. }
  rewrite E. cbn [res trace tape_left ret app]. reflexivity.
Qed.

Lemma summary_input_raises (st s : Z) (items : list item) (tape : list nat) :
  (st < Py.len (prompt_content_of items))%Z ->
  let k := Py.int_percent (Z.of_nat (List.length items)) s in
  ~ (0 <= k <= Z.of_nat (List.length items))%Z ->
  summary_input (vec := vec) st s items tape
  = mk_outcome [] tape (Raise "ValueError").
Proof.
  intros H k Hk. unfold summary_input.
  apply Z.ltb_lt in H. rewrite H.
  unfold bind, randsample. fold k.
  assert (E : ((k <? 0) || (Z.of_nat (List.length items) <? k))%Z = true).
  { apply orb_true_iff. rewrite !Z.ltb_lt. lia. }
  rewrite E. reflexivity.
Qed.

(** A percentage between 0 and 100 asks for no more items than there
    are. *)
Lemma int_percent_bounds (n s : Z) :
  (0 <= n)%Z -> (0 <= s <= 100)%Z ->
  (0 <= Py.int_percent n s <= n)%Z.
Proof.
  intros Hn Hs. unfold Py.int_percent.
  rewrite Z.quot_div_nonneg by nia. split.
  - apply Z.div_pos; nia.
  - apply Z.div_le_upper_bound; nia.
Qed.

(** Whatever the outcome, the text [summary_input] returns is the joined
    text of some of the items, and its trace holds no call of the
    model. *)
Lemma summary_input_text (st s : Z) (items : list item) (tape : list nat) text :
  res (summary_input (vec := vec) st s items tape) = Ok text ->
  exists drawn, incl drawn items /\ text = prompt_content_of drawn.
Proof.
  destruct (Z.le_gt_cases (Py.len (prompt_content_of items)) st) as [H|H].
  - rewrite summary_input_direct by exact H. cbn [res]. intros [= <-].
    exists items. split; [apply incl_refl|reflexivity].
  - set (k := Py.int_percent (Z.of_nat (List.length items)) s).
    destruct (Z_le_dec 0 k) as [K0|K0];
      [destruct (Z_le_dec k (Z.of_nat (List.length items))) as [K1|K1]|].
    + rewrite summary_input_sampled by (fold k; auto). cbn [res]. intros [= <-].
      eexists. split; [apply draw_incl|reflexivity].
    + rewrite summary_input_raises by (fold k; lia). discriminate.
    + rewrite summary_input_raises by (fold k; lia). discriminate.
Qed.

Lemma summary_input_no_prompt (st s : Z) (items : list item) (tape : list nat)
    (text system : string) :
  ~ In (Prompt text system) (trace (summary_input (vec := vec) st s items tape)).
Proof.
  destruct (Z.le_gt_cases (Py.len (prompt_content_of items)) st) as [H|H].
  - rewrite summary_input_direct by exact H. intros [].
  - set (k := Py.int_percent (Z.of_nat (List.length items)) s).
    destruct (Z_le_dec 0 k) as [K0|K0];
      [destruct (Z_le_dec k (Z.of_nat (List.length items))) as [K1|K1]|].
    + rewrite summary_input_sampled by (fold k; auto).
      intros [E|[]]. discriminate E.
    + rewrite summary_input_raises by (fold k; lia). intros [].
    + rewrite summary_input_raises by (fold k; lia). intros [].
Qed.

End TextFacts.

(** * The claims *)

(** ** Grouping *)

Section GroupingClaims.

Context {vec : Type}.

(** C1: when the clustering library returns one label per row, the items
    of the output clusters, taken together, are exactly the items of the
    rows read from the store, each one once (so are their ids), and no
    two clusters share a key: every row is in exactly one cluster. *)
Theorem every_item_in_exactly_one_cluster
    (t : Z) (rows : list (row vec)) (labels : list Z) :
  List.length labels = List.length rows ->
  Permutation (List.concat (map cluster_items (assemble t rows labels)))
              (map (item_of t) rows)
  /\ Permutation
       (map item_id (List.concat (map cluster_items (assemble t rows labels))))
       (map row_id rows)
  /\ NoDup (map cluster_id (assemble t rows labels)).
Proof.
  intros L.
  assert (P : Permutation (List.concat (map cluster_items (assemble t rows labels)))
                          (map (item_of t) rows)).
  { rewrite assemble_items. now rewrite fst_combine. }
  split; [exact P|]. split.
  - rewrite P, map_map. reflexivity.
  - unfold assemble, group_from. rewrite map_map. cbn [cluster_id].
    apply group_from_keys_nodup. constructor.
Qed.

(** C8: the output clusters come in the order in which their stringified
    label is first met while scanning the rows, and each holds the items
    of its rows in the order of the rows. *)
Theorem clusters_in_first_seen_order
    (t : Z) (rows : list (row vec)) (labels : list Z) :
  assemble t rows labels
  = map (fun k => mk_cluster k (map (item_of t) (rows_of k (combine rows labels))))
        (first_seen (map (fun p => Py.str (snd p)) (combine rows labels))).
Proof.
  unfold assemble, group_from. rewrite group_from_char, map_map. reflexivity.
Qed.

End GroupingClaims.

(** The labels 2, 0, 2, 1 give the clusters "2", "0", "1": the order of the
    scan, not the order of the numbers. *)
Example scan_order_not_numeric :
  map cluster_id
    (assemble 0
       [mk_row "a" tt None; mk_row "b" tt None; mk_row "c" tt None; mk_row "d" tt None]
       [2; 0; 2; 1]%Z)
  = ["2"; "0"; "1"].
Proof. reflexivity. Qed.

(** ** Truncation *)

Section TruncationClaims.

Context {vec : Type}.

(** C4, as amended: with [truncate = 0] every output item carries the id
    of a row read and that row's content unchanged when it is non-empty;
    content that is [None] or the empty string comes out as [None]. *)
Theorem truncate_zero_keeps_nonempty_content
    (rows : list (row vec)) (labels : list Z) (c : out_cluster) (it : item) :
  In c (assemble 0 rows labels) -> In it (cluster_items c) ->
  exists r, In r rows /\ item_id it = row_id r
    /\ item_content it
       = if Py.truthy_opt (row_content r) then row_content r else None.
Proof.
  intros Hc Hit.
  destruct (assemble_items_from_rows 0 rows labels c it Hc Hit) as [r [Hr E]].
  exists r. subst it. repeat split; [exact Hr|].
  cbn [item_of item_content].
  destruct (row_content r) as [[|a s]|]; reflexivity.
Qed.

(** C5, as amended: with [truncate = k > 0] every output item carries the
    id of a row read; when the row's content is non-empty the item's
    content is its first [k] characters (all of it when it is shorter),
    of length at most [k]; content that is [None] or the empty string
    comes out as [None]. *)
Theorem truncate_positive_takes_prefix
    (k : Z) (rows : list (row vec)) (labels : list Z) (c : out_cluster) (it : item) :
  (0 < k)%Z ->
  In c (assemble k rows labels) -> In it (cluster_items c) ->
  exists r, In r rows /\ item_id it = row_id r
    /\ match row_content r with
       | Some (String a s) =>
           item_content it = Some (Py.take (Z.to_nat k) (String a s))
           /\ (Py.len (Py.take (Z.to_nat k) (String a s))
               = Z.min k (Py.len (String a s)))%Z
           /\ exists rest,
                String a s = (Py.take (Z.to_nat k) (String a s) ++ rest)%string
       | _ => item_content it = None
       end.
Proof.
  intros Hk Hc Hit.
  destruct (assemble_items_from_rows k rows labels c it Hc Hit) as [r [Hr E]].
  exists r. subst it. repeat split; [exact Hr|].
  cbn [item_of item_content].
  destruct (row_content r) as [[|a s]|]; try reflexivity.
  unfold truncate_text. cbn [Py.truthy negb].
  assert (B : (0 <? k)%Z = true) by (apply Z.ltb_lt; exact Hk). rewrite B.
  split; [reflexivity|]. split.
  - unfold Py.len. rewrite take_length. lia.
  - apply take_split.
Qed.

(** C9: a negative [truncate] behaves as [truncate = 0] on every
    content, and passes non-empty content through unmodified. *)
Theorem negative_truncate_passes_through (t : Z) (text : option string) :
  (t < 0)%Z ->
  truncate_text t text = truncate_text 0 text
  /\ (Py.truthy_opt text = true -> truncate_text t text = text).
Proof.
  intros Ht. unfold truncate_text.
  assert (B : (0 <? t)%Z = false) by (apply Z.ltb_ge; lia).
  rewrite B. cbn. split; [reflexivity|].
  destruct text as [[|a s]|]; cbn; intros H; try discriminate; reflexivity.
Qed.

End TruncationClaims.

(** ** The summary pass *)

Section SummaryClaims.

Context {vec : Type}.
Variable model_prompt : Model -> string -> string -> result string.

Lemma prompt_content_of_null (items : list item) :
  (forall it, In it items -> item_content it = None) ->
  prompt_content_of items = "".
Proof.
  intros H. unfold prompt_content_of.
  replace (filter (fun it => Py.truthy_opt (item_content it)) items) with (@nil item);
    [reflexivity|].
  induction items as [|it items IH]; [reflexivity|]. cbn [filter].
  rewrite (H it) by now left. cbn [Py.truthy_opt].
  apply IH. intros it' Hit'. apply H. now right.
Qed.

(** The model is called with the text [summary_input] returns, when that
    text has a character that is not whitespace, and not otherwise. *)
Lemma summarise_unfold (m : Model) (prompt : string) (st s : Z)
    (items : list item) (tape : list nat) (text : string) :
  res (summary_input (vec := vec) st s items tape) = Ok text ->
  let o := summary_input (vec := vec) st s items tape in
  summarise (vec := vec) model_prompt m prompt st s items tape
  = if Py.all_space text
    then mk_outcome (trace o ++ []) (tape_left o) (Ok None)
    else match model_prompt m text prompt with
         | Ok r => mk_outcome (trace o ++ [Prompt text prompt] ++ []) (tape_left o)
                              (Ok (Some r))
         | Raise e => mk_outcome (trace o ++ [Prompt text prompt]) (tape_left o)
                                 (Raise e)
         end.
Proof.
  intros H o. subst o. unfold summarise. unfold bind at 1. rewrite H.
  rewrite strip_truthy. destruct (Py.all_space text); cbn [negb].
  - reflexivity.
  - unfold ask, bind, emit, lift, ret. cbn [res trace tape_left].
    destruct (model_prompt m text prompt); reflexivity.
Qed.

(** With no content in any item the text step returns the empty text,
    provided it does not sample (a threshold that is not negative) or the
    percentage is one the sampler accepts. *)
Lemma summary_input_null (st s : Z) (items : list item) (tape : list nat) :
  (forall it, In it items -> item_content it = None) ->
  (0 <= st)%Z \/ (0 <= s <= 100)%Z ->
  res (summary_input (vec := vec) st s items tape) = Ok "".
Proof.
  intros N V. pose proof (prompt_content_of_null items N) as E.
  destruct (Z.le_gt_cases (Py.len (prompt_content_of items)) st) as [H|H].
  - rewrite summary_input_direct by exact H. cbn [res]. now rewrite E.
  - assert (Hs : (0 <= s <= 100)%Z).
    { destruct V as [V|V]; [|exact V]. rewrite E in H. cbn in H. lia. }
    rewrite summary_input_sampled
      by (try exact H; apply int_percent_bounds; lia).
    cbn [res]. f_equal. apply prompt_content_of_null.
    intros it Hit. apply N. eapply draw_incl. exact Hit.
Qed.

(** C7: when the text assembled for a cluster is empty or holds only
    whitespace, the summary is [None] and the model is not called; so it
    is when every item has [None] for content (the text step then returns
    the empty text, for a threshold that is not negative or a percentage
    between 0 and 100). *)
Theorem blank_text_gives_null_summary (m : Model) (prompt : string) (st s : Z)
    (items : list item) (tape : list nat) :
  (exists text, res (summary_input (vec := vec) st s items tape) = Ok text
                /\ Py.all_space text = true)
  \/ ((forall it, In it items -> item_content it = None)
      /\ ((0 <= st)%Z \/ (0 <= s <= 100)%Z)) ->
  res (summarise (vec := vec) model_prompt m prompt st s items tape) = Ok None
  /\ forall sent system,
       ~ In (Prompt sent system)
            (trace (summarise (vec := vec) model_prompt m prompt st s items tape)).
Proof.
  intros B.
  assert (T : exists text, res (summary_input (vec := vec) st s items tape) = Ok text
                           /\ Py.all_space text = true).
  { destruct B as [B|[N V]]; [exact B|].
    exists "". split; [now apply summary_input_null|reflexivity]. }
  destruct T as [text [H S]].
  rewrite (summarise_unfold m prompt st s items tape text H). rewrite S.
  cbn [res trace]. split; [reflexivity|].
  intros sent system. rewrite app_nil_r. apply summary_input_no_prompt.
Qed.

(** C6, as amended: above the threshold, and for a percentage between 0
    and 100, the sampler is asked for [int(item_count * sample / 100)]
    items, the quotient truncated toward zero; that many are drawn, from
    distinct positions of the cluster's items, and the text is rebuilt
    from them. *)
Theorem sample_size_is_truncated_percentage (st s : Z)
    (items : list item) (tape : list nat) :
  (st < Py.len (prompt_content_of items))%Z -> (0 <= s <= 100)%Z ->
  let k := Py.int_percent (Z.of_nat (List.length items)) s in
  exists drawn rest tape',
    summary_input (vec := vec) st s items tape
    = mk_outcome [Sample k drawn] tape' (Ok (prompt_content_of drawn))
    /\ Z.of_nat (List.length drawn) = k
    /\ k = Z.quot (Z.of_nat (List.length items) * s) 100
    /\ Permutation (drawn ++ rest) items.
Proof.
  intros H Hs k.
  assert (Hk : (0 <= k <= Z.of_nat (List.length items))%Z)
    by (apply int_percent_bounds; lia).
  destruct (draw_perm (Z.to_nat k) items tape) as [rest P].
  exists (fst (draw (Z.to_nat k) items tape)), rest,
         (snd (draw (Z.to_nat k) items tape)).
  split; [now apply summary_input_sampled|]. split; [|split].
  - rewrite draw_length by lia. lia.
  - reflexivity.
  - exact P.
Qed.

(** C10: above the threshold, when [int(item_count * sample / 100)] is
    0 the sample is empty, the rebuilt text is empty, and the summary is
    [None] without a call of the model. *)
Theorem empty_sample_gives_null_summary (m : Model) (prompt : string) (st s : Z)
    (items : list item) (tape : list nat) :
  (st < Py.len (prompt_content_of items))%Z ->
  Py.int_percent (Z.of_nat (List.length items)) s = 0%Z ->
  summary_input (vec := vec) st s items tape
  = mk_outcome [Sample 0 []] tape (Ok "")
  /\ summarise (vec := vec) model_prompt m prompt st s items tape
     = mk_outcome [Sample 0 []] tape (Ok None).
Proof.
  intros H K.
  assert (E : summary_input (vec := vec) st s items tape
              = mk_outcome [Sample 0 []] tape (Ok "")).
  { rewrite summary_input_sampled by (try rewrite K; try exact H; lia).
    rewrite K. reflexivity. }
  split; [exact E|].
  rewrite (summarise_unfold m prompt st s items tape "") by (now rewrite E).
  rewrite E. reflexivity.
Qed.

(** C2, as amended: the text for the model is built from the content the
    output items carry, that is after [truncate_text].  Below the
    threshold it joins what the rows of the cluster keep after
    [truncate_text], in their order; and any text sent to the model,
    sampled or not, joins what some rows of the cluster keep after
    [truncate_text]. *)
Theorem summary_text_uses_truncated_content
    (t : Z) (rows : list (row vec)) (labels : list Z) (c : out_cluster) :
  In c (assemble t rows labels) ->
  prompt_content_of (cluster_items c)
  = Py.join Py.newline
      (flat_map (kept_text t) (rows_of (cluster_id c) (combine rows labels)))
  /\ forall m prompt st s tape sent system,
       In (Prompt sent system)
          (trace (summarise (vec := vec) model_prompt m prompt st s (cluster_items c) tape)) ->
       exists rs,
         incl rs (rows_of (cluster_id c) (combine rows labels))
         /\ sent = Py.join Py.newline (flat_map (kept_text t) rs).
Proof.
  intros Hc. pose proof (assemble_cluster_items t rows labels c Hc) as E.
  split.
  - rewrite E at 1. apply prompt_content_of_rows.
  - intros m prompt st s tape sent system H.
    destruct (res (summary_input (vec := vec) st s (cluster_items c) tape))
      as [text|e] eqn:R.
    + rewrite (summarise_unfold m prompt st s _ tape text R) in H.
      assert (S : sent = text).
      { destruct (Py.all_space text).
        - cbn [trace] in H. rewrite app_nil_r in H.
          now apply summary_input_no_prompt in H.
        - destruct (model_prompt m text prompt); cbn [trace] in H;
            apply in_app_or in H; destruct H as [H|H];
            try (now apply summary_input_no_prompt in H);
            cbn in H; destruct H as [H|H]; try contradiction;
            now inversion H. }
      subst sent.
      destruct (summary_input_text st s _ tape text R) as [drawn [I T]].
      rewrite E in I. apply incl_map_inv in I. destruct I as [rs [I D]].
      exists rs. split; [exact I|]. subst drawn text.
      apply prompt_content_of_rows.
    + exfalso. unfold summarise, bind in H. rewrite R in H. cbn [trace] in H.
      now apply summary_input_no_prompt in H.
Qed.

End SummaryClaims.

(** ** The whole run *)

Section RunFacts.

Context {blob vec : Type}.
Variable decode : blob -> vec.
Variable open_db : string -> Database blob.
Variable user_db : string.
Variable fit_labels : Z -> list vec -> result (list Z).
Variable get_default_model : string.
Variable get_model : string -> result Model.
Variable get_key : string -> option string -> option string -> result string.
Variable model_prompt : Model -> string -> string -> result string.

(** Without [--summary] a run whose clustering returns prints the
    assembled clusters, and nothing else. *)
Lemma cluster_plain_output
    (collection : string) (n t : Z) (database : option string)
    (model prompt : option string) (st s : Z) (tape : list nat) (labels : list Z) :
  let rows := read_rows decode open_db user_db database collection in
  fit_labels n (map row_vec rows) = Ok labels ->
  cluster decode open_db user_db fit_labels get_default_model get_model
          get_key model_prompt
          collection n t database false model prompt st s tape
  = mk_outcome [Fit n (map row_vec rows); Echo (Dump (assemble t rows labels))]
               tape (Ok tt).
Proof.
  intros rows F. unfold cluster. fold rows.
  unfold fit, bind, emit, lift. cbn [res trace tape_left].
  rewrite F. reflexivity.
Qed.

(** C3, as amended: when the name is not in [collections] the query
    gives no rows and raises nothing; the clustering library is then
    called on the empty data set.  When it raises, the run ends with
    that exception and nothing is printed; were it to return, the run
    without [--summary] would print the empty list of clusters. *)
Theorem missing_collection_reaches_clustering
    (collection : string) (n t : Z) (database : option string)
    (summary : bool) (model prompt : option string) (st s : Z) (tape : list nat) :
  collection_id collection (collections (the_db open_db user_db database)) = None ->
  read_rows decode open_db user_db database collection = []
  /\ (forall e, fit_labels n [] = Raise e ->
        cluster decode open_db user_db fit_labels get_default_model get_model
                get_key model_prompt
                collection n t database summary model prompt st s tape
        = mk_outcome [Fit n []] tape (Raise e))
  /\ (forall labels, fit_labels n [] = Ok labels ->
        cluster decode open_db user_db fit_labels get_default_model get_model
                get_key model_prompt
                collection n t database false model prompt st s tape
        = mk_outcome [Fit n []; Echo (Dump [])] tape (Ok tt)).
Proof.
  intros H.
  assert (R : read_rows decode open_db user_db database collection = []).
  { unfold read_rows, select_embeddings. now rewrite H. }
  split; [exact R|]. split.
  - intros e F. unfold cluster. rewrite R. cbn [map].
    unfold fit, bind, emit, lift. cbn [res trace tape_left].
    rewrite F. reflexivity.
  - intros labels F. unfold cluster. rewrite R. cbn [map].
    unfold fit, bind, emit, lift. cbn [res trace tape_left].
    rewrite F. cbn [res trace tape_left app]. reflexivity.
Qed.

End RunFacts.

(** ** The claims on the example stores *)

Local Open Scope Z_scope.

(** C1 on the collection [docs]. *)
Lemma every_item_in_exactly_one_cluster_docs :
  List.length Stub.docs_labels = List.length Stub.docs_rows
  /\ Permutation
       (map item_id
          (List.concat (map cluster_items
                          (assemble 100 Stub.docs_rows Stub.docs_labels))))
       (map row_id Stub.docs_rows).
Proof.
  split; [reflexivity|].
  apply (every_item_in_exactly_one_cluster 100 Stub.docs_rows Stub.docs_labels).
  reflexivity.
Defined.

(** C2 fails as stated: with [truncate = 3] the model is sent "alp" for
    the cluster of the item whose stored content is "alpha beta"; and
    above the threshold, with [truncate = 5], the sample's text is made of
    the five-character contents. *)
Lemma summary_text_is_truncated_counterexample :
  let direct := Stub.run "docs" 3 3 None true None None 30000 80 [] in
  let sampled := Stub.run "big" 1 5 (Some "big.db") true None None 10 50 [3; 1; 4; 1]%nat in
  In (mk_row "a" [2] (Some "alpha beta")) Stub.docs_rows
  /\ In (Prompt "alp" DEFAULT_SUMMARY_PROMPT) (trace direct)
  /\ ~ In (Prompt "alpha beta" DEFAULT_SUMMARY_PROMPT) (trace direct)
  /\ In (Prompt (Py.join Py.newline ["sssss"; "qqqqq"]) DEFAULT_SUMMARY_PROMPT)
        (trace sampled).
Proof.
  cbv zeta. split; [left; reflexivity|]. split; [|split].
  - vm_compute. do 5 right. left. reflexivity.
  - intros H. vm_compute in H.
    repeat (destruct H as [H|H]; [discriminate H|]). exact H.
  - vm_compute. do 6 right. left. reflexivity.
Qed.

(** C2, as amended, on the first cluster of [docs] with [truncate = 3]. *)
Lemma summary_text_uses_truncated_content_docs :
  let c := mk_cluster "2" [mk_item "a" (Some "alp"); mk_item "c" None] in
  In c (assemble 3 Stub.docs_rows Stub.docs_labels)
  /\ prompt_content_of (cluster_items c)
     = Py.join Py.newline
         (flat_map (kept_text 3)
            (rows_of (cluster_id c) (combine Stub.docs_rows Stub.docs_labels))).
Proof.
  cbv zeta.
  assert (H : In (mk_cluster "2" [mk_item "a" (Some "alp"); mk_item "c" None])
                 (assemble 3 Stub.docs_rows Stub.docs_labels))
    by (left; reflexivity).
  split; [exact H|].
  exact (proj1 (summary_text_uses_truncated_content Stub.model_prompt 3
                  Stub.docs_rows Stub.docs_labels _ H)).
Defined.

(** C3 fails as stated: for a name that is not in the store the run calls
    the clustering library, on no data, and ends with the exception of
    that library, not with [NotFoundError]. *)
Lemma missing_collection_counterexample :
  let o := Stub.run "missing" 3 100 None false None None 30000 80 [] in
  collection_id "missing" (collections Stub.docs_db) = None
  /\ trace o = [Fit 3 []]
  /\ res o = Raise "ValueError"
  /\ res o <> Raise "NotFoundError".
Proof.
  cbv zeta. repeat split; try reflexivity. vm_compute. discriminate.
Qed.

(** C3, as amended, with the stubs. *)
Lemma missing_collection_reaches_clustering_stub :
  collection_id "missing" (collections (the_db Stub.open_db Stub.user_db None)) = None
  /\ Stub.run "missing" 3 100 None true None None 30000 80 []
     = mk_outcome [Fit 3 []] [] (Raise "ValueError").
Proof.
  split; [reflexivity|].
  apply (missing_collection_reaches_clustering
           Stub.decode Stub.open_db Stub.user_db Stub.fit_labels
           Stub.get_default_model Stub.get_model Stub.get_key Stub.model_prompt
           "missing" 3 100 None true None None 30000 80 []); reflexivity.
Defined.

(** C4 fails as stated: with [truncate = 0] an item whose stored content
    is the empty string comes out with [None] for content. *)
Lemma truncate_zero_counterexample :
  let r := mk_row "b" tt (Some "") in
  assemble 0 [r] [0] = [mk_cluster "0" [mk_item "b" None]]
  /\ None <> row_content r.
Proof.
  cbv zeta. split; [reflexivity|discriminate].
Qed.

(** C4, as amended, on the first item of [docs]. *)
Lemma truncate_zero_keeps_nonempty_content_docs :
  let it := mk_item "a" (Some "alpha beta") in
  let c := mk_cluster "2" [it; mk_item "c" None] in
  In c (assemble 0 Stub.docs_rows Stub.docs_labels)
  /\ In it (cluster_items c)
  /\ exists r, In r Stub.docs_rows /\ item_id it = row_id r
       /\ item_content it
          = if Py.truthy_opt (row_content r) then row_content r else None.
Proof.
  cbv zeta.
  assert (Hc : In (mk_cluster "2" [mk_item "a" (Some "alpha beta"); mk_item "c" None])
                  (assemble 0 Stub.docs_rows Stub.docs_labels))
    by (left; reflexivity).
  split; [exact Hc|]. split; [left; reflexivity|].
  apply (truncate_zero_keeps_nonempty_content Stub.docs_rows Stub.docs_labels _ _ Hc).
  left; reflexivity.
Defined.

(** C5 fails as stated: with [truncate = 3] an item whose stored content
    is the empty string comes out with [None], not with the first three
    characters of the empty string. *)
Lemma truncate_positive_counterexample :
  let r := mk_row "b" tt (Some "") in
  assemble 3 [r] [0] = [mk_cluster "0" [mk_item "b" None]]
  /\ None <> option_map (Py.take 3) (row_content r).
Proof.
  cbv zeta. split; [reflexivity|discriminate].
Qed.

(** C5, as amended, on the first item of [docs] with [truncate = 3]. *)
Lemma truncate_positive_takes_prefix_docs :
  let it := mk_item "a" (Some "alp") in
  let c := mk_cluster "2" [it; mk_item "c" None] in
  0 < 3
  /\ In c (assemble 3 Stub.docs_rows Stub.docs_labels)
  /\ In it (cluster_items c)
  /\ exists r, In r Stub.docs_rows /\ item_id it = row_id r
       /\ match row_content r with
          | Some (String a s) =>
              item_content it = Some (Py.take (Z.to_nat 3) (String a s))
              /\ Py.len (Py.take (Z.to_nat 3) (String a s))
                 = Z.min 3 (Py.len (String a s))
              /\ exists rest,
                   String a s = (Py.take (Z.to_nat 3) (String a s) ++ rest)%string
          | _ => item_content it = None
          end.
Proof.
  cbv zeta.
  assert (Hc : In (mk_cluster "2" [mk_item "a" (Some "alp"); mk_item "c" None])
                  (assemble 3 Stub.docs_rows Stub.docs_labels))
    by (left; reflexivity).
  split; [lia|]. split; [exact Hc|]. split; [left; reflexivity|].
  eapply (truncate_positive_takes_prefix 3 Stub.docs_rows Stub.docs_labels);
    [lia|exact Hc|left; reflexivity].
Defined.

(** C6 fails as stated: of four items at 70 percent, two are drawn, where
    rounding 2.8 gives three. *)
Lemma sample_size_not_rounded_counterexample :
  List.length Stub.big_items = 4%nat
  /\ spec_round_percent 4 70 = 3
  /\ summary_input (vec := Stub.vec) 10 70 Stub.big_items [3; 1; 4; 1]%nat
     = mk_outcome
         [Sample 2 [mk_item "s" (Some "ssssssssssssssssssss");
                    mk_item "q" (Some "qqqqqqqqqqqqqqqqqqqq")]]
         [4; 1]%nat
         (Ok (Py.join Py.newline ["ssssssssssssssssssss"; "qqqqqqqqqqqqqqqqqqqq"])).
Proof.
  repeat split; reflexivity.
Qed.

(** C6, as amended, on the cluster of [big] at 70 percent. *)
Lemma sample_size_is_truncated_percentage_big :
  10 < Py.len (prompt_content_of Stub.big_items)
  /\ 0 <= 70 <= 100
  /\ exists drawn rest tape',
       summary_input (vec := Stub.vec) 10 70 Stub.big_items [3; 1; 4; 1]%nat
       = mk_outcome [Sample 2 drawn] tape' (Ok (prompt_content_of drawn))
       /\ Z.of_nat (List.length drawn) = 2
       /\ 2 = Z.quot (Z.of_nat (List.length Stub.big_items) * 70) 100
       /\ Permutation (drawn ++ rest) Stub.big_items.
Proof.
  split; [reflexivity|]. split; [lia|].
  apply (sample_size_is_truncated_percentage (vec := Stub.vec)
           10 70 Stub.big_items [3; 1; 4; 1]%nat); [reflexivity|lia].
Defined.

(** C7 on a cluster whose only item has no content. *)
Lemma blank_text_gives_null_summary_null_item :
  let items := [mk_item "c" None] in
  let m := mk_model "stub" None None None in
  (forall it, In it items -> item_content it = None)
  /\ 0 <= 30000
  /\ res (summarise (vec := Stub.vec) Stub.model_prompt m DEFAULT_SUMMARY_PROMPT
                    30000 80 items []) = Ok None.
Proof.
  cbv zeta.
  assert (N : forall it, In it [mk_item "c" None] -> item_content it = None).
  { intros it [<-|[]]. reflexivity. }
  split; [exact N|]. split; [lia|].
  apply (blank_text_gives_null_summary (vec := Stub.vec) Stub.model_prompt
           (mk_model "stub" None None None) DEFAULT_SUMMARY_PROMPT 30000 80
           [mk_item "c" None] []).
  right. split; [exact N|]. left. lia.
Defined.

(** C9 at [truncate = -5]. *)
Lemma negative_truncate_passes_through_abc :
  -5 < 0
  /\ truncate_text (-5) (Some "abc"%string) = truncate_text 0 (Some "abc"%string)
  /\ truncate_text (-5) (Some "abc"%string) = Some "abc"%string.
Proof.
  split; [lia|].
  destruct (negative_truncate_passes_through (-5) (Some "abc"%string)) as [E P];
    [lia|].
  split; [exact E|]. apply P. reflexivity.
Defined.

(** C10 on the cluster of [big] at 20 percent: four items, none drawn. *)
Lemma empty_sample_gives_null_summary_big :
  let m := mk_model "stub" None None None in
  10 < Py.len (prompt_content_of Stub.big_items)
  /\ Py.int_percent (Z.of_nat (List.length Stub.big_items)) 20 = 0
  /\ summarise (vec := Stub.vec) Stub.model_prompt m DEFAULT_SUMMARY_PROMPT
               10 20 Stub.big_items [3; 1; 4; 1]%nat
     = mk_outcome [Sample 0 []] [3; 1; 4; 1]%nat (Ok None).
Proof.
  cbv zeta. split; [reflexivity|]. split; [reflexivity|].
  apply (empty_sample_gives_null_summary (vec := Stub.vec) Stub.model_prompt
           (mk_model "stub" None None None) DEFAULT_SUMMARY_PROMPT 10 20
           Stub.big_items [3; 1; 4; 1]%nat); reflexivity.
Defined.

(** * Further properties of the command *)

(** ** Labels and keys *)

Section KeyFacts.

Lemma to_int_not_nil (z : Z) :
  Z.to_int z <> Decimal.Pos Decimal.Nil /\ Z.to_int z <> Decimal.Neg Decimal.Nil.
Proof.
  pose proof (DecimalZ.to_of (Z.to_int z)) as N.
  rewrite DecimalZ.of_to in N.
  split; intros E; rewrite E in N; discriminate N.
Qed.

(** [str] sends different integers to different strings. *)
Lemma str_inj (a b : Z) : Py.str a = Py.str b -> a = b.
Proof.
  unfold Py.str. intros E.
  destruct (to_int_not_nil a) as [A1 A2]. destruct (to_int_not_nil b) as [B1 B2].
  pose proof (NilZero.isi (Z.to_int a) A1 A2) as Ia.
  pose proof (NilZero.isi (Z.to_int b) B1 B2) as Ib.
  rewrite E in Ia. rewrite Ia in Ib. injection Ib as Ib.
  now apply DecimalZ.to_int_inj.
Qed.

Lemma str_eqb (a b : Z) : String.eqb (Py.str a) (Py.str b) = Z.eqb a b.
Proof.
  destruct (Z.eqb_spec a b) as [->|N].
  - apply String.eqb_refl.
  - apply String.eqb_neq. intros E. apply N. now apply str_inj.
Qed.

Lemma first_seen_length (l : list string) :
  (List.length (first_seen l) <= List.length l)%nat.
Proof.
  induction l as [|a l IH]; simpl; [lia|].
  pose proof (filter_length_le (fun k' => negb (String.eqb k' a)) (first_seen l)).
  lia.
Qed.

End KeyFacts.

(** ** More on the assembled clusters *)

Section AssembleMore.

Context {vec : Type}.

Lemma rows_of_present (k : string) (pairs : list (row vec * Z)) :
  In k (map (fun p : row vec * Z => Py.str (snd p)) pairs) -> rows_of k pairs <> [].
Proof.
  unfold rows_of. induction pairs as [|p pairs IH]; simpl; [tauto|].
  intros [E|H].
  - rewrite E, String.eqb_refl. discriminate.
  - destruct (String.eqb (Py.str (snd p)) k); [discriminate|]. now apply IH.
Qed.

Lemma fst_combine_firstn (rows : list (row vec)) (labels : list Z) :
  map fst (combine rows labels) = firstn (List.length labels) rows.
Proof.
  revert labels; induction rows as [|r rows IH]; intros [|l labels];
    simpl; try reflexivity.
  f_equal. apply IH.
Qed.

Lemma assemble_member (t : Z) (rows : list (row vec)) (labels : list Z) c :
  In c (assemble t rows labels) ->
  In (cluster_id c) (map (fun p : row vec * Z => Py.str (snd p)) (combine rows labels)).
Proof.
  unfold assemble, group_from. rewrite group_from_char, map_map.
  intros H. apply in_map_iff in H. destruct H as [k [E Hk]]. subst c.
  cbn [cluster_id fst]. now apply in_first_seen.
Qed.

Lemma NoDup_map_str (ls : list Z) : NoDup ls -> NoDup (map Py.str ls).
Proof.
  induction 1 as [|a ls Ha ND IH]; simpl; constructor; [|exact IH].
  intros H. apply in_map_iff in H. destruct H as [b [E Hb]].
  apply str_inj in E. subst b. contradiction.
Qed.

(** X1: no output cluster is empty: a key enters the dict together with its
    first item. *)
Theorem no_empty_cluster (t : Z) (rows : list (row vec)) (labels : list Z) c :
  In c (assemble t rows labels) -> cluster_items c <> [].
Proof.
  intros H. rewrite (assemble_cluster_items t rows labels c H).
  pose proof (rows_of_present _ _ (assemble_member t rows labels c H)) as N.
  destruct (rows_of (cluster_id c) (combine rows labels)); [contradiction|].
  discriminate.
Qed.

(** X2: grouping under the stringified label is grouping under the label: a
    cluster holds the rows of exactly one label, all of them, and its key
    is that label as a string. *)
Theorem cluster_is_one_label (t : Z) (rows : list (row vec)) (labels : list Z) c :
  In c (assemble t rows labels) ->
  exists l,
    In l (map snd (combine rows labels))
    /\ cluster_id c = Py.str l
    /\ cluster_items c
       = map (item_of t)
           (map fst (filter (fun p => Z.eqb (snd p) l) (combine rows labels))).
Proof.
  intros H. pose proof (assemble_member t rows labels c H) as M.
  apply in_map_iff in M. destruct M as [p [E Hp]].
  exists (snd p). split; [now apply in_map|]. split; [now symmetry|].
  rewrite (assemble_cluster_items t rows labels c H). rewrite <- E.
  unfold rows_of. f_equal. f_equal. apply filter_ext. intros q. apply str_eqb.
Qed.

(** X3: there are as many output clusters as distinct labels among the pairs
    of the zip, hence no more than rows and no more than labels. *)
Theorem cluster_count (t : Z) (rows : list (row vec)) (labels : list Z) :
  List.length (assemble t rows labels)
  = List.length (nodup Z.eq_dec (map snd (combine rows labels)))
  /\ (List.length (assemble t rows labels)
      <= Nat.min (List.length rows) (List.length labels))%nat.
Proof.
  assert (L : List.length (assemble t rows labels)
              = List.length (first_seen (map (fun p : row vec * Z => Py.str (snd p))
                                             (combine rows labels)))).
  { unfold assemble, group_from. rewrite group_from_char. now rewrite !length_map. }
  split.
  - rewrite L. rewrite <- (length_map Py.str (nodup Z.eq_dec _)).
    apply Permutation_length. apply NoDup_Permutation.
    + apply first_seen_nodup.
    + apply NoDup_map_str. apply NoDup_nodup.
    + intros k. rewrite in_first_seen. rewrite <- (map_map snd Py.str).
      rewrite !in_map_iff. split; intros [l [E Hl]]; exists l; split; auto.
      * now apply nodup_In.
      * now apply nodup_In in Hl.
  - rewrite L. pose proof (first_seen_length
      (map (fun p : row vec * Z => Py.str (snd p)) (combine rows labels))) as B.
    rewrite length_map, length_combine in B. exact B.
Qed.

(** X4: the zip stops at the shorter list: were the library to return fewer
    labels than rows, the rows beyond the labels would be left out of the
    output, and nothing would be raised. *)
Theorem rows_beyond_labels_dropped (t : Z) (rows : list (row vec)) (labels : list Z) :
  Permutation (List.concat (map cluster_items (assemble t rows labels)))
              (map (item_of t) (firstn (List.length labels) rows))
  /\ assemble t rows labels
     = assemble t (firstn (List.length labels) rows)
                  (firstn (List.length rows) labels).
Proof.
  split.
  - rewrite assemble_items. now rewrite fst_combine_firstn.
  - unfold assemble, group_from. f_equal. f_equal.
    revert labels; induction rows as [|r rows IH]; intros [|l labels];
      simpl; try reflexivity.
    f_equal. apply IH.
Qed.

(** X5: the content of an output item is never the empty string: it is [None]
    or a string with a character in it. *)
Theorem no_empty_string_content (t : Z) (rows : list (row vec)) (labels : list Z) c it :
  In c (assemble t rows labels) -> In it (cluster_items c) ->
  item_content it <> Some "".
Proof.
  intros Hc Hit E.
  destruct (assemble_items_from_rows t rows labels c it Hc Hit) as [r [_ ->]].
  cbn [item_of item_content] in E. apply truncate_text_some in E. discriminate E.
Qed.

End AssembleMore.

(** ** More on [truncate_text] *)

Section TruncateMore.

Lemma take_take (a b : nat) (s : string) :
  Py.take a (Py.take b s) = Py.take (Nat.min a b) s.
Proof.
  revert b s; induction a as [|a IH]; intros [|b] [|c s]; simpl; try reflexivity.
  now rewrite IH.
Qed.

(** X6: truncating twice is truncating once, whatever the option. *)
Theorem truncate_text_idempotent (t : Z) (text : option string) :
  truncate_text t (truncate_text t text) = truncate_text t text.
Proof.
  destruct text as [[|c s]|]; try reflexivity.
  unfold truncate_text at 2. cbn [Py.truthy negb].
  destruct (0 <? t)%Z eqn:Ht.
  - assert (Hn : (0 < Z.to_nat t)%nat) by (apply Z.ltb_lt in Ht; lia).
    unfold truncate_text. rewrite take_truthy by exact Hn.
    cbn [Py.truthy negb]. rewrite Ht, take_take, Nat.min_id. reflexivity.
  - unfold truncate_text. cbn [Py.truthy negb]. now rewrite Ht.
Qed.

(** X7: two positive truncations compose to the shorter one. *)
Theorem truncate_text_compose (a b : Z) (text : option string) :
  (0 < a)%Z -> (0 < b)%Z ->
  truncate_text a (truncate_text b text) = truncate_text (Z.min a b) text.
Proof.
  intros Ha Hb. destruct text as [[|c s]|]; try reflexivity.
  assert (Ba : (0 <? a)%Z = true) by now apply Z.ltb_lt.
  assert (Bb : (0 <? b)%Z = true) by now apply Z.ltb_lt.
  assert (Bm : (0 <? Z.min a b)%Z = true) by (apply Z.ltb_lt; lia).
  unfold truncate_text. cbn [Py.truthy negb]. rewrite Bb, Bm.
  rewrite take_truthy by lia. cbn [Py.truthy negb]. rewrite Ba, take_take.
  now rewrite Z2Nat.inj_min.
Qed.

End TruncateMore.

(** ** The flags of the loop *)

Section FlagFacts.

Context {A : Type}.

(** X8: the loop visits every cluster once, in order, and flags the last one
    only; for no cluster at all it has no turn. *)
Theorem last_flag_on_last_only (init : list A) (c : A) :
  combine (init ++ [c]) (last_flags (List.length (init ++ [c])))
  = map (fun x => (x, false)) init ++ [(c, true)]
  /\ combine (@nil A) (last_flags 0) = [].
Proof.
  split; [|reflexivity]. unfold last_flags.
  rewrite length_app. cbn [List.length].
  replace (Z.to_nat (Z.of_nat (List.length init + 1) - 1)) with (List.length init) by lia.
  induction init as [|x init IH]; simpl; [reflexivity|]. now rewrite IH.
Qed.

End FlagFacts.

(** ** Traces of the summary pass *)

Section TraceFacts.

Context {vec : Type}.
Variable model_prompt : Model -> string -> string -> result string.

Lemma echoes_app (a b : list (event vec)) : echoes (a ++ b) = echoes a ++ echoes b.
Proof. apply flat_map_app. Qed.

Lemma prompts_app (a b : list (event vec)) : prompts (a ++ b) = prompts a ++ prompts b.
Proof. apply flat_map_app. Qed.

(** The text step leaves at most the record of one sample in the trace. *)
Lemma summary_input_trace (st s : Z) (items : list item) (tape : list nat) :
  trace (summary_input (vec := vec) st s items tape) = []
  \/ exists k drawn, trace (summary_input (vec := vec) st s items tape) = [Sample k drawn].
Proof.
  destruct (Z.le_gt_cases (Py.len (prompt_content_of items)) st) as [H|H].
  - left. now rewrite summary_input_direct.
  - set (k := Py.int_percent (Z.of_nat (List.length items)) s).
    destruct (Z_le_dec 0 k) as [K0|K0];
      [destruct (Z_le_dec k (Z.of_nat (List.length items))) as [K1|K1]|].
    + right. rewrite summary_input_sampled by (fold k; auto).
      cbn [trace]. eexists. eexists. reflexivity.
    + left. now rewrite summary_input_raises by (fold k; lia).
    + left. now rewrite summary_input_raises by (fold k; lia).
Qed.

Lemma summary_input_echoes (st s : Z) (items : list item) (tape : list nat) :
  echoes (trace (summary_input (vec := vec) st s items tape)) = []
  /\ prompts (trace (summary_input (vec := vec) st s items tape)) = [].
Proof.
  destruct (summary_input_trace st s items tape) as [E|[k [d E]]];
    rewrite E; split; reflexivity.
Qed.

(** A summary prints nothing, and calls the model at most once, with a
    text that is not blank and the prompt it was given. *)
Lemma summarise_trace (m : Model) (prompt : string) (st s : Z)
    (items : list item) (tape : list nat) :
  let o := summarise (vec := vec) model_prompt m prompt st s items tape in
  echoes (trace o) = []
  /\ (prompts (trace o) = []
      \/ exists text, Py.all_space text = false /\ prompts (trace o) = [(text, prompt)]).
Proof.
  cbv zeta.
  destruct (summary_input_echoes st s items tape) as [E P].
  destruct (res (summary_input (vec := vec) st s items tape)) as [text|e] eqn:R.
  - rewrite (summarise_unfold model_prompt m prompt st s items tape text R).
    destruct (Py.all_space text) eqn:S.
    + cbn [trace]. rewrite app_nil_r. split; [exact E|left; exact P].
    + destruct (model_prompt m text prompt); cbn [trace];
        rewrite echoes_app, prompts_app, E, P;
        (split; [reflexivity|right; exists text; split; [exact S|reflexivity]]).
  - unfold summarise, bind. rewrite R. cbn [trace]. split; [exact E|left; exact P].
Qed.

(** One turn of the loop, by the outcome of the summary. *)
Lemma emit_cluster_unfold (m : Model) (prompt : string) (st s : Z)
    (ci : out_cluster * bool) (tape : list nat) :
  let o := summarise (vec := vec) model_prompt m prompt st s (cluster_items (fst ci)) tape in
  let head := [Echo ObjectOpen; Echo (IdLine (cluster_id (fst ci)));
               Echo (ItemsLine (cluster_items (fst ci)))] in
  emit_cluster model_prompt m prompt st s ci tape
  = match res o with
    | Ok sm =>
        mk_outcome
          (head ++ trace o ++ [Echo (SummaryLine sm); Echo (ObjectClose (snd ci))])
          (tape_left o) (Ok tt)
    | Raise e => mk_outcome (head ++ trace o) (tape_left o) (Raise e)
    end.
Proof.
  cbv zeta. unfold emit_cluster, bind, emit. cbn [res trace tape_left app].
  destruct (res (summarise (vec := vec) model_prompt m prompt st s
                           (cluster_items (fst ci)) tape));
    reflexivity.
Qed.

(** The same, for what the turn prints and asks. *)
Lemma emit_cluster_trace (m : Model) (prompt : string) (st s : Z)
    (ci : out_cluster * bool) (tape : list nat) :
  let o := emit_cluster (vec := vec) model_prompt m prompt st s ci tape in
  let sm := summarise (vec := vec) model_prompt m prompt st s (cluster_items (fst ci)) tape in
  tape_left o = tape_left sm
  /\ prompts (trace o) = prompts (trace sm)
  /\ match res sm with
     | Ok x => res o = Ok tt /\ echoes (trace o) = block ci x
     | Raise e =>
         res o = Raise e
         /\ echoes (trace o)
            = [ObjectOpen; IdLine (cluster_id (fst ci));
               ItemsLine (cluster_items (fst ci))]
     end.
Proof.
  cbv zeta. rewrite emit_cluster_unfold. cbv zeta.
  pose proof (summarise_trace m prompt st s (cluster_items (fst ci)) tape) as [E _].
  cbv zeta in E.
  destruct (res (summarise (vec := vec) model_prompt m prompt st s
                           (cluster_items (fst ci)) tape)) as [x|e];
    cbn [res trace tape_left].
  - split; [reflexivity|]. split.
    + rewrite !prompts_app. cbn [prompts flat_map app]. now rewrite app_nil_r.
    + split; [reflexivity|]. rewrite !echoes_app, E. reflexivity.
  - split; [reflexivity|]. split.
    + rewrite prompts_app. reflexivity.
    + split; [reflexivity|]. rewrite echoes_app, E. reflexivity.
Qed.

Lemma for_each_cons {A} (body : A -> M vec unit) (a : A) (l : list A) (tape : list nat) :
  for_each body (a :: l) tape
  = match res (body a tape) with
    | Ok _ =>
        mk_outcome (trace (body a tape)
                    ++ trace (for_each body l (tape_left (body a tape))))
                   (tape_left (for_each body l (tape_left (body a tape))))
                   (res (for_each body l (tape_left (body a tape))))
    | Raise e => mk_outcome (trace (body a tape)) (tape_left (body a tape)) (Raise e)
    end.
Proof. reflexivity. Qed.

(** What the loop prints when it ends well: the block of each cluster in
    turn, with some summary. *)
Lemma for_each_ok (m : Model) (prompt : string) (st s : Z)
    (l : list (out_cluster * bool)) (tape : list nat) :
  res (for_each (emit_cluster (vec := vec) model_prompt m prompt st s) l tape) = Ok tt ->
  exists sums,
    List.length sums = List.length l
    /\ echoes (trace (for_each (emit_cluster (vec := vec) model_prompt m prompt st s) l tape))
       = List.concat (map (fun p => block (fst p) (snd p)) (combine l sums)).
Proof.
  revert tape; induction l as [|ci l IH]; intros tape H.
  - exists []. split; reflexivity.
  - rewrite for_each_cons in *.
    destruct (emit_cluster_trace m prompt st s ci tape) as [_ [_ T]]. cbv zeta in T.
    destruct (res (summarise (vec := vec) model_prompt m prompt st s
                             (cluster_items (fst ci)) tape)) as [x|e].
    + destruct T as [R T]. rewrite R in *. cbn [res trace] in *.
      destruct (IH _ H) as [sums [L U]].
      exists (x :: sums). split; [simpl; now rewrite L|].
      rewrite echoes_app, T, U. reflexivity.
    + destruct T as [R T]. rewrite R in H. discriminate H.
Qed.

(** What the loop prints, whatever its end: never a bracket of the array,
    never a dump. *)
Lemma for_each_echoes (m : Model) (prompt : string) (st s : Z)
    (l : list (out_cluster * bool)) (tape : list nat) (e : echo) :
  In e (echoes (trace (for_each (emit_cluster (vec := vec) model_prompt m prompt st s) l tape))) ->
  e <> ArrayClose /\ e <> ArrayOpen /\ forall cs, e <> Dump cs.
Proof.
  revert tape; induction l as [|ci l IH]; intros tape H.
  - destruct H.
  - rewrite for_each_cons in H.
    destruct (emit_cluster_trace m prompt st s ci tape) as [_ [_ T]]. cbv zeta in T.
    destruct (res (summarise (vec := vec) model_prompt m prompt st s
                             (cluster_items (fst ci)) tape)) as [x|ex];
      destruct T as [R T]; rewrite R in H; cbn [trace] in H.
    + rewrite echoes_app, T in H. apply in_app_or in H. destruct H as [H|H].
      * unfold block in H. cbn [In] in H.
        repeat (destruct H as [<-|H]; [repeat split; try intros cs; discriminate|]).
        destruct H.
      * now apply (IH _ H).
    + rewrite T in H. cbn [In] in H.
      repeat (destruct H as [<-|H]; [repeat split; try intros cs; discriminate|]).
      destruct H.
Qed.

(** The calls of the model in the loop: at most one a turn, none with a
    blank text, all with the prompt of the run. *)
Lemma for_each_prompts (m : Model) (prompt : string) (st s : Z)
    (l : list (out_cluster * bool)) (tape : list nat) :
  let tr := trace (for_each (emit_cluster (vec := vec) model_prompt m prompt st s) l tape) in
  (List.length (prompts tr) <= List.length l)%nat
  /\ Forall (fun p => Py.all_space (fst p) = false /\ snd p = prompt) (prompts tr).
Proof.
  cbv zeta. revert tape; induction l as [|ci l IH]; intros tape.
  - split; [apply Nat.le_refl|constructor].
  - rewrite for_each_cons.
    destruct (emit_cluster_trace m prompt st s ci tape) as [_ [P _]]. cbv zeta in P.
    pose proof (summarise_trace m prompt st s (cluster_items (fst ci)) tape) as [_ Q].
    cbv zeta in Q. rewrite <- P in Q.
    assert (Q' : (List.length (prompts (trace (emit_cluster (vec := vec) model_prompt
                                                m prompt st s ci tape))) <= 1)%nat
                 /\ Forall (fun p => Py.all_space (fst p) = false /\ snd p = prompt)
                      (prompts (trace (emit_cluster (vec := vec) model_prompt
                                         m prompt st s ci tape)))).
    { destruct Q as [Q|[text [S Q]]]; rewrite Q; split; simpl; try lia.
      - constructor.
      - constructor; [split; [exact S|reflexivity]|constructor]. }
    destruct Q' as [Q1 Q2].
    destruct (res (emit_cluster (vec := vec) model_prompt m prompt st s ci tape));
      cbn [trace].
    + destruct (IH (tape_left (emit_cluster (vec := vec) model_prompt
                                 m prompt st s ci tape))) as [I1 I2].
      rewrite prompts_app. split.
      * rewrite length_app. cbn [List.length]. lia.
      * apply Forall_app. split; assumption.
    + split; [cbn [List.length]; lia|exact Q2].
Qed.

End TraceFacts.

(** ** More on the whole run *)

Section RunMore.

Context {blob vec : Type}.
Variable decode : blob -> vec.
Variable open_db : string -> Database blob.
Variable user_db : string.
Variable fit_labels : Z -> list vec -> result (list Z).
Variable get_default_model : string.
Variable get_model : string -> result Model.
Variable get_key : string -> option string -> option string -> result string.
Variable model_prompt : Model -> string -> string -> result string.

(** Loading the model prints nothing and draws nothing. *)
Lemma load_model_quiet (model : option string) (tape : list nat) :
  load_model (vec := vec) get_default_model get_model get_key model tape
  = mk_outcome [] tape
      (res (load_model (vec := vec) get_default_model get_model get_key model tape)).
Proof.
  unfold load_model, bind, lift, ret. cbn [res trace tape_left].
  destruct (get_model (Py.or_else model get_default_model)) as [m|e];
    [|reflexivity].
  destruct (Py.truthy_opt (needs_key m)); cbn [res trace tape_left];
    [|reflexivity].
  destruct (get_key "" (needs_key m) (key_env_var m)); reflexivity.
Qed.

Lemma fit_bind {B} (n : Z) (data : list vec) (k : list Z -> M vec B) (tape : list nat) :
  bind (fit fit_labels n data) k tape
  = match fit_labels n data with
    | Ok labels =>
        mk_outcome (Fit n data :: trace (k labels tape)) (tape_left (k labels tape))
                   (res (k labels tape))
    | Raise e => mk_outcome [Fit n data] tape (Raise e)
    end.
Proof.
  unfold fit, bind, emit, lift. cbn [res trace tape_left].
  destruct (fit_labels n data); reflexivity.
Qed.

Lemma load_model_bind {B} (model : option string) (k : Model -> M vec B) (tape : list nat) :
  bind (load_model get_default_model get_model get_key model) k tape
  = match res (load_model (vec := vec) get_default_model get_model get_key model tape) with
    | Ok m => mk_outcome (trace (k m tape)) (tape_left (k m tape)) (res (k m tape))
    | Raise e => mk_outcome [] tape (Raise e)
    end.
Proof.
  unfold bind. rewrite load_model_quiet. cbn [res trace tape_left].
  destruct (res (load_model (vec := vec) get_default_model get_model get_key model tape));
    reflexivity.
Qed.

Lemma emit_bind {B} (ev : event vec) (k : M vec B) (tape : list nat) :
  bind (emit ev) (fun _ => k) tape
  = mk_outcome (ev :: trace (k tape)) (tape_left (k tape)) (res (k tape)).
Proof. reflexivity. Qed.

(** The run with [--summary], once the labels are there, by the outcome of
    the loading of the model and of the loop. *)
Lemma cluster_summary_unfold
    (collection : string) (n t : Z) (database : option string)
    (model prompt : option string) (st s : Z) (tape : list nat) (labels : list Z) :
  let rows := read_rows decode open_db user_db database collection in
  let cs := assemble t rows labels in
  fit_labels n (map row_vec rows) = Ok labels ->
  cluster decode open_db user_db fit_labels get_default_model get_model
          get_key model_prompt
          collection n t database true model prompt st s tape
  = match res (load_model (vec := vec) get_default_model get_model get_key model tape) with
    | Raise e => mk_outcome [Fit n (map row_vec rows)] tape (Raise e)
    | Ok m =>
        let loop :=
          for_each (emit_cluster (vec := vec) model_prompt m
                      (Py.or_else prompt DEFAULT_SUMMARY_PROMPT) st s)
                   (combine cs (last_flags (List.length cs))) tape in
        match res loop with
        | Ok _ =>
            mk_outcome ([Fit n (map row_vec rows); Echo ArrayOpen]
                        ++ trace loop ++ [Echo ArrayClose])
                       (tape_left loop) (Ok tt)
        | Raise e =>
            mk_outcome ([Fit n (map row_vec rows); Echo ArrayOpen] ++ trace loop)
                       (tape_left loop) (Raise e)
        end
    end.
Proof.
  intros rows cs F. unfold cluster. fold rows.
  rewrite fit_bind, F. fold cs. rewrite load_model_bind.
  destruct (res (load_model (vec := vec) get_default_model get_model get_key model tape))
    as [m|e]; cbn [res trace tape_left]; [|reflexivity].
  rewrite emit_bind. cbn [res trace tape_left]. unfold bind.
  destruct (res (for_each (emit_cluster (vec := vec) model_prompt m
                             (Py.or_else prompt DEFAULT_SUMMARY_PROMPT) st s)
                          (combine cs (last_flags (List.length cs))) tape)) as [[]|e];
    reflexivity.
Qed.

Lemma cluster_fit_raises
    (collection : string) (n t : Z) (database : option string) (summary : bool)
    (model prompt : option string) (st s : Z) (tape : list nat) (e : exn) :
  let rows := read_rows decode open_db user_db database collection in
  fit_labels n (map row_vec rows) = Raise e ->
  cluster decode open_db user_db fit_labels get_default_model get_model
          get_key model_prompt
          collection n t database summary model prompt st s tape
  = mk_outcome [Fit n (map row_vec rows)] tape (Raise e).
Proof.
  intros rows F. unfold cluster. fold rows. rewrite fit_bind, F. reflexivity.
Qed.

Lemma last_flags_cover {A} (cs : list A) :
  List.length (combine cs (last_flags (List.length cs))) = List.length cs.
Proof.
  rewrite length_combine. unfold last_flags.
  rewrite length_app, repeat_length. cbn [List.length]. lia.
Qed.

Lemma plain_run_unfold_ok
    (collection : string) (n t : Z) (database : option string)
    (model prompt : option string) (st s : Z) (tape : list nat) (labels : list Z) :
  fit_labels n (map row_vec (read_rows decode open_db user_db database collection))
  = Ok labels ->
  cluster decode open_db user_db fit_labels get_default_model get_model
          get_key model_prompt
          collection n t database false model prompt st s tape
  = mk_outcome
      [Fit n (map row_vec (read_rows decode open_db user_db database collection));
       Echo (Dump (assemble t (read_rows decode open_db user_db database collection)
                             labels))]
      tape (Ok tt).
Proof.
  intros F. unfold cluster. rewrite fit_bind, F. reflexivity.
Qed.

Lemma for_each_succeeds {A} (body : A -> M vec unit) (l : list A) (tape : list nat) :
  (forall a tp, In a l -> res (body a tp) = Ok tt) ->
  res (for_each body l tape) = Ok tt.
Proof.
  revert tape; induction l as [|a l IH]; intros tape H; [reflexivity|].
  rewrite for_each_cons. rewrite (H a tape) by now left.
  cbn [res]. apply IH. intros b tp Hb. apply H. now right.
Qed.

Lemma summarise_succeeds (m : Model) (prompt : string) (st s : Z)
    (items : list item) (tape : list nat) :
  (forall text, exists r, model_prompt m text prompt = Ok r) ->
  (0 <= s <= 100)%Z ->
  exists sm, res (summarise (vec := vec) model_prompt m prompt st s items tape) = Ok sm.
Proof.
  intros Hm Hs.
  assert (T : exists text, res (summary_input (vec := vec) st s items tape) = Ok text).
  { destruct (Z.le_gt_cases (Py.len (prompt_content_of items)) st) as [H|H].
    - rewrite summary_input_direct by exact H. eexists. reflexivity.
    - rewrite summary_input_sampled
        by (try exact H; apply int_percent_bounds; lia).
      eexists. reflexivity. }
  destruct T as [text T].
  rewrite (summarise_unfold model_prompt m prompt st s items tape text T).
  destruct (Py.all_space text); [eexists; reflexivity|].
  destruct (Hm text) as [r ->]. eexists. reflexivity.
Qed.

Local Abbreviation run :=
  (cluster decode open_db user_db fit_labels get_default_model get_model
           get_key model_prompt).
Local Abbreviation rows_read := (read_rows decode open_db user_db).
Local Abbreviation load := (load_model (vec := vec) get_default_model get_model get_key).

(** X9: without [--summary] the run depends on the store and the clustering
    only: it ends with the exception of the clustering and prints nothing,
    or prints the clusters in one piece; the model is neither looked up nor
    called, and no number is drawn. *)
Theorem plain_run_outcome
    (collection : string) (n t : Z) (database : option string)
    (model prompt : option string) (st s : Z) (tape : list nat) :
  let rows := rows_read database collection in
  run collection n t database false model prompt st s tape
  = match fit_labels n (map row_vec rows) with
    | Ok labels =>
        mk_outcome [Fit n (map row_vec rows); Echo (Dump (assemble t rows labels))]
                   tape (Ok tt)
    | Raise e => mk_outcome [Fit n (map row_vec rows)] tape (Raise e)
    end.
Proof.
  intros rows. unfold cluster. fold rows. rewrite fit_bind.
  destruct (fit_labels n (map row_vec rows)); reflexivity.
Qed.

(** X10: with [--summary], a model that cannot be found, or a key that cannot
    be resolved, ends the run after the clustering and before anything is
    printed. *)
Theorem model_failure_before_output
    (collection : string) (n t : Z) (database : option string)
    (model prompt : option string) (st s : Z) (tape : list nat)
    (labels : list Z) (e : exn) :
  let rows := rows_read database collection in
  let name := Py.or_else model get_default_model in
  fit_labels n (map row_vec rows) = Ok labels ->
  get_model name = Raise e
  \/ (exists m, get_model name = Ok m
                /\ Py.truthy_opt (needs_key m) = true
                /\ get_key "" (needs_key m) (key_env_var m) = Raise e) ->
  run collection n t database true model prompt st s tape
  = mk_outcome [Fit n (map row_vec rows)] tape (Raise e).
Proof.
  intros rows name F H.
  rewrite (cluster_summary_unfold collection n t database model prompt st s tape labels F).
  assert (L : res (load model tape) = Raise e).
  { unfold load_model, bind, lift, ret. cbn [res trace tape_left]. fold name.
    destruct H as [H|[m [H [K G]]]]; rewrite H; [reflexivity|].
    rewrite K. cbn [res trace tape_left]. rewrite G. reflexivity. }
  rewrite L. reflexivity.
Qed.

(** X11: a run with [--summary] that ends well has printed the opening
    bracket, then for each cluster in turn its five lines (with the flag
    of the last cluster on the last one only), then the closing bracket. *)
Theorem summary_run_prints_array
    (collection : string) (n t : Z) (database : option string)
    (model prompt : option string) (st s : Z) (tape : list nat) :
  let rows := rows_read database collection in
  let o := run collection n t database true model prompt st s tape in
  res o = Ok tt ->
  exists labels sums,
    fit_labels n (map row_vec rows) = Ok labels
    /\ List.length sums = List.length (assemble t rows labels)
    /\ echoes (trace o)
       = [ArrayOpen]
         ++ List.concat
              (map (fun p => block (fst p) (snd p))
                   (combine (combine (assemble t rows labels)
                                     (last_flags (List.length (assemble t rows labels))))
                            sums))
         ++ [ArrayClose].
Proof.
  intros rows o. subst o.
  destruct (fit_labels n (map row_vec rows)) as [labels|e] eqn:F.
  - rewrite (cluster_summary_unfold collection n t database model prompt st s tape labels F).
    destruct (res (load model tape)) as [m|e]; [|discriminate].
    cbv zeta.
    destruct (res (for_each (emit_cluster (vec := vec) model_prompt m
                               (Py.or_else prompt DEFAULT_SUMMARY_PROMPT) st s)
                     (combine (assemble t (rows_read database collection) labels)
                        (last_flags
                           (List.length (assemble t (rows_read database collection) labels))))
                     tape)) as [[]|e] eqn:R; [|discriminate].
    intros _. destruct (for_each_ok (vec := vec) model_prompt _ _ _ _ _ _ R) as [sums [L E]].
    exists labels, sums. split; [reflexivity|]. split.
    + rewrite L. apply last_flags_cover.
    + cbn [trace]. rewrite !echoes_app. rewrite E. reflexivity.
  - rewrite (cluster_fit_raises collection n t database true model prompt st s tape e F).
    discriminate.
Qed.

(** X12: a run that fails never prints a whole document: neither the closing
    bracket of the array nor the dump of the clusters is in what it has
    printed. *)
Theorem failed_run_output_unclosed
    (collection : string) (n t : Z) (database : option string) (summary : bool)
    (model prompt : option string) (st s : Z) (tape : list nat) (e : exn) :
  let o := run collection n t database summary model prompt st s tape in
  res o = Raise e ->
  ~ In ArrayClose (echoes (trace o)) /\ forall cs, ~ In (Dump cs) (echoes (trace o)).
Proof.
  intros o. subst o.
  destruct (fit_labels n (map row_vec (rows_read database collection)))
    as [labels|ex] eqn:F.
  - destruct summary.
    + rewrite (cluster_summary_unfold collection n t database model prompt st s tape
                 labels F).
      destruct (res (load model tape)) as [m|ex].
      * cbv zeta.
        destruct (res (for_each (emit_cluster (vec := vec) model_prompt m
                                   (Py.or_else prompt DEFAULT_SUMMARY_PROMPT) st s) _ tape))
          as [[]|ex] eqn:R; [discriminate|].
        intros _. cbn [trace]. rewrite echoes_app.
        split; [|intros cs]; intros H; apply in_app_or in H;
          (destruct H as [H|H]; [cbn in H; destruct H as [H|[]]; discriminate H|]);
          apply for_each_echoes in H; destruct H as [H1 [H2 H3]];
          [now apply H1|now apply (H3 cs)].
      * intros _. split; [|intros cs]; intros [].
    + rewrite (plain_run_unfold_ok collection n t database model prompt st s tape labels F). discriminate.
  - rewrite (cluster_fit_raises collection n t database summary model prompt st s tape
               ex F).
    intros _. split; [|intros cs]; intros [].
Qed.

(** X13: the model is never sent a blank text, and always gets the prompt of
    the run: the one given, or the default one when none or an empty one
    is given. *)
Theorem model_never_sent_blank_text
    (collection : string) (n t : Z) (database : option string) (summary : bool)
    (model prompt : option string) (st s : Z) (tape : list nat) :
  Forall (fun p => Py.all_space (fst p) = false
                   /\ snd p = Py.or_else prompt DEFAULT_SUMMARY_PROMPT)
         (prompts (trace (run collection n t database summary model prompt st s tape))).
Proof.
  destruct (fit_labels n (map row_vec (rows_read database collection)))
    as [labels|ex] eqn:F.
  - destruct summary.
    + rewrite (cluster_summary_unfold collection n t database model prompt st s tape
                 labels F).
      destruct (res (load model tape)) as [m|ex]; [|constructor].
      cbv zeta.
      pose proof (for_each_prompts (vec := vec) model_prompt m
                    (Py.or_else prompt DEFAULT_SUMMARY_PROMPT) st s
                    (combine (assemble t (rows_read database collection) labels)
                       (last_flags
                          (List.length (assemble t (rows_read database collection) labels))))
                    tape) as [_ P].
      cbv zeta in P.
      destruct (res (for_each (emit_cluster (vec := vec) model_prompt m
                                 (Py.or_else prompt DEFAULT_SUMMARY_PROMPT) st s) _ tape))
        as [[]|ex]; cbn [trace]; rewrite !prompts_app;
        cbn [prompts flat_map app]; rewrite ?app_nil_r; exact P.
    + rewrite (plain_run_unfold_ok collection n t database model prompt st s tape labels F). constructor.
  - rewrite (cluster_fit_raises collection n t database summary model prompt st s tape
               ex F).
    constructor.
Qed.


(** X15: with [--summary], when the clustering returns, the model loads and
    answers every call, and the percentage is between 0 and 100, the run
    ends well. *)
Theorem summary_run_succeeds
    (collection : string) (n t : Z) (database : option string)
    (model prompt : option string) (st s : Z) (tape : list nat)
    (labels : list Z) (m : Model) :
  let rows := rows_read database collection in
  fit_labels n (map row_vec rows) = Ok labels ->
  res (load model tape) = Ok m ->
  (forall text system, exists r, model_prompt m text system = Ok r) ->
  (0 <= s <= 100)%Z ->
  res (run collection n t database true model prompt st s tape) = Ok tt.
Proof.
  intros rows F L Hm Hs.
  rewrite (cluster_summary_unfold collection n t database model prompt st s tape labels F).
  rewrite L. cbv zeta.
  rewrite for_each_succeeds; [reflexivity|].
  intros ci tp _.
  destruct (emit_cluster_trace (vec := vec) model_prompt m
              (Py.or_else prompt DEFAULT_SUMMARY_PROMPT) st s ci tp) as [_ [_ T]].
  cbv zeta in T.
  destruct (summarise_succeeds m (Py.or_else prompt DEFAULT_SUMMARY_PROMPT) st s
              (cluster_items (fst ci)) tp) as [sm S]; [intros text; apply Hm|exact Hs|].
  rewrite S in T. apply T.
Qed.

End RunMore.

(** ** More on the text for the model *)

Section SummaryMore.

Context {vec : Type}.
Variable model_prompt : Model -> string -> string -> result string.

Lemma str_length_app (a b : string) :
  String.length (a ++ b) = (String.length a + String.length b)%nat.
Proof. induction a as [|c a IH]; simpl; [reflexivity|now rewrite IH]. Qed.

Lemma join_length (sep : string) (l : list string) :
  String.length (Py.join sep l)
  = (list_sum (map String.length l) + (List.length l - 1) * String.length sep)%nat.
Proof.
  induction l as [|x l IH]; [reflexivity|].
  destruct l as [|y l].
  - simpl. lia.
  - change (Py.join sep (x :: y :: l)) with (x ++ sep ++ Py.join sep (y :: l))%string.
    rewrite !str_length_app, IH. cbn [map list_sum List.length].
    rewrite !Nat.sub_succ, !Nat.sub_0_r. unfold list_sum. cbn [fold_right]. nia.
Qed.

Lemma Permutation_filter_same {A} (f : A -> bool) (l l' : list A) :
  Permutation l l' -> Permutation (filter f l) (filter f l').
Proof.
  induction 1 as [|x l l' P IH|x y l|l l' l'' P1 IH1 P2 IH2]; simpl.
  - constructor.
  - destruct (f x); [now constructor|exact IH].
  - destruct (f x), (f y); try reflexivity. apply perm_swap.
  - now transitivity (filter f l').
Qed.

(** The length of the joined text does not depend on the order of the
    items. *)
Lemma prompt_content_len_perm (l l' : list item) :
  Permutation l l' ->
  Py.len (prompt_content_of l) = Py.len (prompt_content_of l').
Proof.
  intros P. unfold Py.len, prompt_content_of. f_equal. rewrite !join_length.
  pose proof (Permutation_map content_of
                (Permutation_filter_same
                   (fun it => Py.truthy_opt (item_content it)) l l' P)) as Q.
  rewrite (Permutation_length Q).
  now rewrite (Permutation_list_sum (Permutation_map String.length Q)).
Qed.

Lemma truncate_text_length (k : Z) (x : option string) (s : string) :
  (0 < k)%Z -> truncate_text k x = Some s -> (String.length s <= Z.to_nat k)%nat.
Proof.
  intros Hk. destruct x as [[|c x]|]; try discriminate.
  unfold truncate_text. cbn [Py.truthy negb].
  assert (B : (0 <? k)%Z = true) by now apply Z.ltb_lt. rewrite B.
  intros [= <-]. rewrite take_length. lia.
Qed.

(** The joined text of items that hold at most [k] characters each. *)
Lemma prompt_content_bound (k : nat) (items : list item) :
  Forall (fun it => (String.length (content_of it) <= k)%nat) items ->
  items <> [] ->
  (String.length (prompt_content_of items) + 1 <= List.length items * (k + 1))%nat.
Proof.
  intros F N. unfold prompt_content_of. rewrite join_length.
  change (String.length Py.newline) with 1%nat.
  set (kept := filter (fun it => Py.truthy_opt (item_content it)) items).
  assert (L : (List.length kept <= List.length items)%nat) by apply filter_length_le.
  assert (S : (list_sum (map String.length (map content_of kept))
               <= List.length kept * k)%nat).
  { assert (Fk : Forall (fun it => (String.length (content_of it) <= k)%nat) kept).
    { apply Forall_forall. intros it Hit. apply filter_In in Hit.
      rewrite Forall_forall in F. now apply F. }
    clear L. induction Fk as [|it kept' H Fk IH]; simpl; [lia|]. lia. }
  rewrite length_map.
  assert (P : (1 <= List.length items)%nat) by (destruct items; [contradiction|simpl; lia]).
  nia.
Qed.

(** X16: with [truncate = k > 0] a cluster of [n] items has a text of at most
    [n * (k + 1) - 1] characters, so that up to that threshold the text
    is not sampled: it is the joined content of all the items. *)
Theorem truncation_bounds_the_text
    (k : Z) (rows : list (row vec)) (labels : list Z) (c : out_cluster)
    (st s : Z) (tape : list nat) :
  (0 < k)%Z ->
  In c (assemble k rows labels) ->
  (Z.of_nat (List.length (cluster_items c)) * (k + 1) - 1 <= st)%Z ->
  (Py.len (prompt_content_of (cluster_items c))
   <= Z.of_nat (List.length (cluster_items c)) * (k + 1) - 1)%Z
  /\ summary_input (vec := vec) st s (cluster_items c) tape
     = mk_outcome [] tape (Ok (prompt_content_of (cluster_items c))).
Proof.
  intros Hk Hc Hst.
  assert (B : (Py.len (prompt_content_of (cluster_items c))
               <= Z.of_nat (List.length (cluster_items c)) * (k + 1) - 1)%Z).
  { assert (N : cluster_items c <> []).
    { rewrite (assemble_cluster_items k rows labels c Hc).
      pose proof (rows_of_present _ _ (assemble_member k rows labels c Hc)) as N.
      destruct (rows_of (cluster_id c) (combine rows labels)); [contradiction|].
      discriminate. }
    pose proof (prompt_content_bound (Z.to_nat k) (cluster_items c)) as P.
    unfold Py.len. 
    assert (F : Forall (fun it => (String.length (content_of it) <= Z.to_nat k)%nat)
                       (cluster_items c)).
    { apply Forall_forall. intros it Hit.
      destruct (assemble_items_from_rows k rows labels c it Hc Hit) as [r [_ ->]].
      unfold content_of, item_of. cbn [item_content].
      destruct (truncate_text k (row_content r)) as [x|] eqn:E; [|simpl; lia].
      now apply (truncate_text_length k (row_content r)). }
    specialize (P F N). nia. }
  split; [exact B|]. apply summary_input_direct. lia.
Qed.

(** X17: at 100 percent the sample is the whole cluster in some order: the
    rebuilt text is as long as the text that went over the threshold. *)
Theorem full_sample_keeps_length (st : Z) (items : list item) (tape : list nat) :
  (st < Py.len (prompt_content_of items))%Z ->
  exists drawn tape',
    summary_input (vec := vec) st 100 items tape
    = mk_outcome [Sample (Z.of_nat (List.length items)) drawn] tape'
                 (Ok (prompt_content_of drawn))
    /\ Permutation drawn items
    /\ (st < Py.len (prompt_content_of drawn))%Z.
Proof.
  intros H.
  assert (K : Py.int_percent (Z.of_nat (List.length items)) 100
              = Z.of_nat (List.length items)).
  { unfold Py.int_percent. apply Z.quot_mul. lia. }
  pose proof (summary_input_sampled (vec := vec) st 100 items tape H) as E.
  cbv zeta in E. rewrite K in E. specialize (E ltac:(lia)).
  rewrite Nat2Z.id in E.
  destruct (draw_perm (List.length items) items tape) as [rest P].
  pose proof (draw_length (List.length items) items tape (Nat.le_refl _)) as L.
  assert (R : rest = []).
  { pose proof (Permutation_length P) as Q. rewrite length_app, L in Q.
    destruct rest; [reflexivity|simpl in Q; lia]. }
  subst rest. rewrite app_nil_r in P.
  eexists. eexists. split; [exact E|]. split; [exact P|].
  now rewrite (prompt_content_len_perm _ _ P).
Qed.


End SummaryMore.

(** ** The further properties on the example stores *)

(** The first cluster of [docs] is not empty. *)
Lemma no_empty_cluster_docs :
  let c := mk_cluster "2" [mk_item "a" (Some "alp"); mk_item "c" None] in
  In c (assemble 3 Stub.docs_rows Stub.docs_labels) /\ cluster_items c <> [].
Proof.
  cbv zeta.
  assert (H : In (mk_cluster "2" [mk_item "a" (Some "alp"); mk_item "c" None])
                 (assemble 3 Stub.docs_rows Stub.docs_labels))
    by (left; reflexivity).
  split; [exact H|].
  exact (no_empty_cluster 3 Stub.docs_rows Stub.docs_labels _ H).
Defined.

(** The first cluster of [docs] is the cluster of one label. *)
Lemma cluster_is_one_label_docs :
  let c := mk_cluster "2" [mk_item "a" (Some "alp"); mk_item "c" None] in
  In c (assemble 3 Stub.docs_rows Stub.docs_labels)
  /\ exists l,
       In l (map snd (combine Stub.docs_rows Stub.docs_labels))
       /\ cluster_id c = Py.str l
       /\ cluster_items c
          = map (item_of 3)
              (map fst (filter (fun p => Z.eqb (snd p) l)
                               (combine Stub.docs_rows Stub.docs_labels))).
Proof.
  cbv zeta.
  assert (H : In (mk_cluster "2" [mk_item "a" (Some "alp"); mk_item "c" None])
                 (assemble 3 Stub.docs_rows Stub.docs_labels))
    by (left; reflexivity).
  split; [exact H|].
  exact (cluster_is_one_label 3 Stub.docs_rows Stub.docs_labels _ H).
Defined.

(** The item of [docs] stored with the empty string does not come out
    with the empty string. *)
Lemma no_empty_string_content_docs :
  let it := mk_item "b" None in
  let c := mk_cluster "0" [it] in
  In c (assemble 0 Stub.docs_rows Stub.docs_labels)
  /\ In it (cluster_items c)
  /\ item_content it <> Some ""%string.
Proof.
  cbv zeta.
  assert (H : In (mk_cluster "0" [mk_item "b" None])
                 (assemble 0 Stub.docs_rows Stub.docs_labels))
    by (right; left; reflexivity).
  split; [exact H|]. split; [left; reflexivity|].
  eapply (no_empty_string_content 0 Stub.docs_rows Stub.docs_labels);
    [exact H|left; reflexivity].
Defined.

(** Three characters of five characters of a text are three of it. *)
Lemma truncate_text_compose_alpha :
  0 < 3 /\ 0 < 5
  /\ truncate_text 3 (truncate_text 5 (Some "alpha beta"%string))
     = truncate_text (Z.min 3 5) (Some "alpha beta"%string).
Proof.
  split; [lia|]. split; [lia|].
  apply (truncate_text_compose 3 5 (Some "alpha beta"%string)); lia.
Defined.

(** A model that is not known: nothing is printed for [docs]. *)
Lemma model_failure_before_output_docs :
  let get_model := fun _ : string => @Raise Model "UnknownModelError"%string in
  Stub.fit_labels 3 (map row_vec Stub.docs_rows) = Ok Stub.docs_labels
  /\ get_model (Py.or_else None Stub.get_default_model) = Raise "UnknownModelError"%string
  /\ cluster Stub.decode Stub.open_db Stub.user_db Stub.fit_labels
             Stub.get_default_model get_model Stub.get_key Stub.model_prompt
             "docs" 3 100 None true None None 30000 80 []
     = mk_outcome [Fit 3 (map row_vec Stub.docs_rows)] [] (Raise "UnknownModelError"%string).
Proof.
  cbv zeta. split; [reflexivity|]. split; [reflexivity|].
  apply (model_failure_before_output
           Stub.decode Stub.open_db Stub.user_db Stub.fit_labels
           Stub.get_default_model (fun _ => Raise "UnknownModelError"%string)
           Stub.get_key Stub.model_prompt
           "docs" 3 100 None None None 30000 80 [] Stub.docs_labels
           "UnknownModelError"%string);
    [reflexivity|left; reflexivity].
Defined.

(** The run on [docs] with summaries prints an array of three blocks. *)
Lemma summary_run_prints_array_docs :
  let o := Stub.run "docs" 3 3 None true None None 30000 80 [] in
  res o = Ok tt
  /\ exists labels sums,
       Stub.fit_labels 3 (map row_vec Stub.docs_rows) = Ok labels
       /\ List.length sums = List.length (assemble 3 Stub.docs_rows labels)
       /\ echoes (trace o)
          = [ArrayOpen]
            ++ List.concat
                 (map (fun p => block (fst p) (snd p))
                      (combine
                         (combine (assemble 3 Stub.docs_rows labels)
                            (last_flags (List.length (assemble 3 Stub.docs_rows labels))))
                         sums))
            ++ [ArrayClose].
Proof.
  cbv zeta. split; [reflexivity|].
  apply (summary_run_prints_array
           Stub.decode Stub.open_db Stub.user_db Stub.fit_labels
           Stub.get_default_model Stub.get_model Stub.get_key Stub.model_prompt
           "docs" 3 3 None None None 30000 80 []).
  reflexivity.
Defined.

(** A percentage of 200 stops the run on [big] inside the array. *)
Lemma failed_run_output_unclosed_big :
  let o := Stub.run "big" 1 0 (Some "big.db") true None None 10 200 [] in
  res o = Raise "ValueError"%string
  /\ ~ In ArrayClose (echoes (trace o))
  /\ In ArrayOpen (echoes (trace o)).
Proof.
  cbv zeta. split; [reflexivity|]. split; [|left; reflexivity].
  apply (failed_run_output_unclosed
           Stub.decode Stub.open_db Stub.user_db Stub.fit_labels
           Stub.get_default_model Stub.get_model Stub.get_key Stub.model_prompt
           "big" 1 0 (Some "big.db") true None None 10 200 [] "ValueError"%string).
  reflexivity.
Defined.


(** The run on [docs] with the stubs ends well. *)
Lemma summary_run_succeeds_docs :
  let m := mk_model "stub" None None None in
  Stub.fit_labels 3 (map row_vec Stub.docs_rows) = Ok Stub.docs_labels
  /\ res (load_model (vec := Stub.vec) Stub.get_default_model Stub.get_model
                     Stub.get_key None []) = Ok m
  /\ (forall text system, exists r, Stub.model_prompt m text system = Ok r)
  /\ 0 <= 80 <= 100
  /\ res (Stub.run "docs" 3 3 None true None None 30000 80 []) = Ok tt.
Proof.
  cbv zeta.
  assert (A : forall text system,
             exists r, Stub.model_prompt (mk_model "stub" None None None) text system = Ok r)
    by (intros text system; exists text; reflexivity).
  split; [reflexivity|]. split; [reflexivity|]. split; [exact A|]. split; [lia|].
  apply (summary_run_succeeds
           Stub.decode Stub.open_db Stub.user_db Stub.fit_labels
           Stub.get_default_model Stub.get_model Stub.get_key Stub.model_prompt
           "docs" 3 3 None None None 30000 80 [] Stub.docs_labels
           (mk_model "stub" None None None));
    [reflexivity|reflexivity|exact A|lia].
Defined.

(** Two items of three characters stay under a threshold of 7. *)
Lemma truncation_bounds_the_text_docs :
  let c := mk_cluster "2" [mk_item "a" (Some "alp"); mk_item "c" None] in
  0 < 3
  /\ In c (assemble 3 Stub.docs_rows Stub.docs_labels)
  /\ Z.of_nat (List.length (cluster_items c)) * (3 + 1) - 1 <= 7
  /\ summary_input (vec := Stub.vec) 7 80 (cluster_items c) []
     = mk_outcome [] [] (Ok (prompt_content_of (cluster_items c))).
Proof.
  cbv zeta.
  assert (H : In (mk_cluster "2" [mk_item "a" (Some "alp"); mk_item "c" None])
                 (assemble 3 Stub.docs_rows Stub.docs_labels))
    by (left; reflexivity).
  split; [lia|]. split; [exact H|]. split; [reflexivity|].
  apply (truncation_bounds_the_text (vec := Stub.vec) 3 Stub.docs_rows Stub.docs_labels
           _ 7 80 [] ltac:(lia) H).
  reflexivity.
Defined.

(** At 100 percent the text of [big] stays over the threshold. *)
Lemma full_sample_keeps_length_big :
  10 < Py.len (prompt_content_of Stub.big_items)
  /\ exists drawn tape',
       summary_input (vec := Stub.vec) 10 100 Stub.big_items [3; 1; 4; 1]%nat
       = mk_outcome [Sample (Z.of_nat (List.length Stub.big_items)) drawn] tape'
                    (Ok (prompt_content_of drawn))
       /\ Permutation drawn Stub.big_items
       /\ 10 < Py.len (prompt_content_of drawn).
Proof.
  split; [reflexivity|].
  apply (full_sample_keeps_length (vec := Stub.vec) 10 Stub.big_items [3; 1; 4; 1]%nat).
  reflexivity.
Defined.

